(** * The node-group AMI updater: [scripts/lambda-update-nodegroup.py]

    A shallow embedding of [lambda_handler] and the properties of its
    orchestration sequence: read the configuration, describe the node
    group, look the recommended release up, compare, and update.

    Python [str] values are modelled by [string]; a character stands for
    the code point of the same number (code points below 256).  The AWS
    services are a [world]: for every request, the answer or the
    exception boto3 raises.  The handler runs in a small monad that
    threads the trace of what it did and distinguishes falling through,
    [return] and a raised exception. *)

From Stdlib Require Import ZArith String Ascii List Bool Lia.
From stdpp Require Import base option strings gmap.
Import ListNotations.

Local Open Scope Z_scope.
Local Open Scope string_scope.
Local Open Scope list_scope.

(** ** [json.dumps] on the values the handler serialises *)

Module Json.

Definition dquote : ascii := "034"%char.
Definition backslash : ascii := "092"%char.

(** One lower-case hexadecimal digit, as [format(n, 'x')] prints it. *)
Definition hex_digit (n : N) : ascii :=
  ascii_of_N (if (n <? 10)%N then 48 + n else 87 + n)%N.

(** [\uXXXX] for a code point below 256. *)
Definition u_escape (n : N) : string :=
  String backslash
    (String "u" (String "0" (String "0"
      (String (hex_digit (n / 16)) (String (hex_digit (n mod 16)) ""))))).

(** [json.encoder.py_encode_basestring_ascii], one character: the
    quote, the backslash and everything outside [' '..'~'] is escaped. *)
Definition escape_char (c : ascii) : string :=
  let n := N_of_ascii c in
  if (n =? 34)%N then String backslash (String dquote "")
  else if (n =? 92)%N then String backslash (String backslash "")
  else if (n =? 10)%N then String backslash "n"
  else if (n =? 13)%N then String backslash "r"
  else if (n =? 9)%N then String backslash "t"
  else if (n =? 12)%N then String backslash "f"
  else if (n =? 8)%N then String backslash "b"
  else if ((32 <=? n) && (n <=? 126))%N then String c ""
  else u_escape n.

Fixpoint escape (s : string) : string :=
  match s with
  | "" => ""
  | String c s' => escape_char c +:+ escape s'
  end.

(** [json.dumps(s)] for a [str]. *)
Definition dumps_str (s : string) : string :=
  String dquote (escape s +:+ String dquote "").

(** [json.dumps(d)] for a [dict] from [str] to [str], in insertion
    order, with the default separators [', '] and [': ']. *)
Fixpoint dumps_items (kvs : list (string * string)) : string :=
  match kvs with
  | [] => ""
  | [(k, v)] => dumps_str k +:+ ": " +:+ dumps_str v
  | (k, v) :: rest =>
      dumps_str k +:+ ": " +:+ dumps_str v +:+ ", " +:+ dumps_items rest
  end.

Definition dumps_dict (kvs : list (string * string)) : string :=
  "{" +:+ dumps_items kvs +:+ "}".

(** *** Reading back: [json.loads] on what [dumps] wrote *)

(** The value of a hexadecimal digit. *)
Definition hex_value (c : ascii) : option N :=
  let n := N_of_ascii c in
  if ((48 <=? n) && (n <=? 57))%N then Some (n - 48)%N
  else if ((97 <=? n) && (n <=? 102))%N then Some (n - 87)%N
  else if ((65 <=? n) && (n <=? 70))%N then Some (n - 55)%N
  else None.

(** The character a two-character escape stands for. *)
Definition unescape_char (c : ascii) : option ascii :=
  let n := N_of_ascii c in
  if (n =? 34)%N then Some dquote
  else if (n =? 92)%N then Some backslash
  else if (n =? 47)%N then Some "/"%char
  else if (n =? 110)%N then Some "010"%char
  else if (n =? 114)%N then Some "013"%char
  else if (n =? 116)%N then Some "009"%char
  else if (n =? 102)%N then Some "012"%char
  else if (n =? 98)%N then Some "008"%char
  else None.

(** The text of a string literal from after its opening quote to its
    closing quote, decoded, and what follows the closing quote.  As in
    [json.loads], a control character (below [' ']) may not stand raw
    in a literal, and an escape is one of the two-character ones or
    [\u] with four hexadecimal digits; an escape for a code point this
    model has no character for (256 and above) is not read. *)
Fixpoint read_string (s : string) : option (string * string) :=
  match s with
  | "" => None
  | String c s1 =>
      if Ascii.eqb c dquote then Some ("", s1)
      else if Ascii.eqb c backslash then
        match s1 with
        | "" => None
        | String e s2 =>
            if Ascii.eqb e "u" then
              match s2 with
              | String h3 (String h2 (String h1 (String h0 s3))) =>
                  match hex_value h3, hex_value h2, hex_value h1, hex_value h0,
                        read_string s3 with
                  | Some a3, Some a2, Some a1, Some a0, Some (text, rest) =>
                      let n := (4096 * a3 + 256 * a2 + 16 * a1 + a0)%N in
                      if (n <? 256)%N then Some (String (ascii_of_N n) text, rest)
                      else None
                  | _, _, _, _, _ => None
                  end
              | _ => None
              end
            else
              match unescape_char e, read_string s2 with
              | Some c', Some (text, rest) => Some (String c' text, rest)
              | _, _ => None
              end
        end
      else if (N_of_ascii c <? 32)%N then None
      else
        match read_string s1 with
        | Some (text, rest) => Some (String c text, rest)
        | None => None
        end
  end.

(** [s] without its prefix [p]. *)
Fixpoint strip_prefix (p s : string) : option string :=
  match p with
  | "" => Some s
  | String a p' =>
      match s with
      | "" => None
      | String b s' => if Ascii.eqb a b then strip_prefix p' s' else None
      end
  end.

(** A string literal at the head of [s], and what follows it. *)
Definition read_literal (s : string) : option (string * string) :=
  match s with
  | String c s' => if Ascii.eqb c dquote then read_string s' else None
  | "" => None
  end.

(** [json.loads] on a document that is one string literal. *)
Definition loads_str (s : string) : option string :=
  match read_literal s with
  | Some (text, "") => Some text
  | _ => None
  end.

(** The items of an object from after its opening brace, as [dumps]
    separates them; [fuel] bounds the number of items. *)
Fixpoint read_items (fuel : nat) (s : string) : option (list (string * string)) :=
  match fuel with
  | O => None
  | S fuel' =>
      match read_literal s with
      | Some (k, s1) =>
          match strip_prefix ": " s1 with
          | Some s2 =>
              match read_literal s2 with
              | Some (v, s3) =>
                  if (s3 =? "}")%string then Some [(k, v)]
                  else
                    match strip_prefix ", " s3 with
                    | Some s4 =>
                        match read_items fuel' s4 with
                        | Some rest => Some ((k, v) :: rest)
                        | None => None
                        end
                    | None => None
                    end
              | None => None
              end
          | None => None
          end
      | None => None
      end
  end.

(** [json.loads] on an object of strings, as a list of items. *)
Definition loads_dict (s : string) : option (list (string * string)) :=
  match strip_prefix "{" s with
  | Some s1 =>
      if (s1 =? "}")%string then Some []
      else read_items (String.length s1) s1
  | None => None
  end.

End Json.

(** ** Data *)

(** The dict the handler returns. *)
Record response := { statusCode : Z; body : string }.

(** [e.response] of a [ClientError]: the dict botocore was given, read
    at ['Error'], and in it at ['Code'] and ['Message']; a key it lacks
    is [None].  (The exception class accepts any dict.) *)
Record error_info := { err_Code : option string; err_Message : option string }.
Record error_response := { resp_Error : option error_info }.

(** The exceptions the handler can meet.  [ParameterNotFoundOf] is an
    instance of [ssm_client.exceptions.ParameterNotFound], a subclass of
    [ClientError]; [ClientErrorOf] is any other instance of
    [ClientError].  [KeyError] is what a failed subscript raises;
    [OtherException] is any other subclass of [Exception], with the text
    [str(e)] gives; [BaseException] is an exception that is not a
    subclass of [Exception] ([KeyboardInterrupt], [SystemExit]). *)
Inductive exn :=
| ClientErrorOf (response : error_response)
| ParameterNotFoundOf (response : error_response)
| KeyError (key : string)
| OtherException (text : string)
| BaseException (text : string).

(** The response botocore builds from the error a service returns: both
    fields present. *)
Definition service_error (code message : string) : error_response :=
  {| resp_Error := Some {| err_Code := Some code; err_Message := Some message |} |}.

(** A [ClientError] for a service error with [code] and [message]. *)
Definition ClientError (code message : string) : exn :=
  ClientErrorOf (service_error code message).

(** The [ParameterNotFound] botocore raises for the error code of that
    name. *)
Definition ParameterNotFound (message : string) : exn :=
  ParameterNotFoundOf (service_error "ParameterNotFound" message).

(** A boto3 client: the service and the region it was created for. *)
Record client := { service_name : string; region_name : string }.

(** The responses of the three operations, with the keys the handler
    reads; a key a response lacks is [None]. *)
Record nodegroup_info :=
  { ng_version : option string; ng_releaseVersion : option string }.
Record describe_nodegroup_response :=
  { dn_nodegroup : option nodegroup_info }.

Record parameter_info := { p_Value : option string }.
Record get_parameter_response := { gp_Parameter : option parameter_info }.

Record update_info := { u_id : option string }.
Record update_nodegroup_version_response :=
  { un_update : option update_info }.

(** The keyword arguments of [update_nodegroup_version]; an argument the
    caller does not pass is [None].  [req_version] is the Kubernetes
    version, [req_force] the flag that overrides pod disruption budgets. *)
Record update_nodegroup_version_request := {
  req_clusterName : string;
  req_nodegroupName : string;
  req_version : option string;
  req_releaseVersion : option string;
  req_force : option bool
}.

(** The process environment and the services, as the handler sees them.
    Every operation is called at most once in an invocation, so its
    answer is a function of the request. *)
Record world := {
  environ : gmap string string;
  boto3_client : string -> string -> option exn;
  describe_nodegroup :
    client -> string -> string -> exn + describe_nodegroup_response;
  get_parameter : client -> string -> exn + get_parameter_response;
  update_nodegroup_version :
    client -> update_nodegroup_version_request ->
    exn + update_nodegroup_version_response
}.

(** ** What an invocation does: the trace *)

Inductive level := INFO | ERROR.

Inductive event :=
| Log (lvl : level) (msg : string)
| NewClient (service region : string)
| DescribeNodegroup (c : client) (clusterName nodegroupName : string)
| GetParameter (c : client) (Name : string)
| UpdateNodegroupVersion (c : client) (req : update_nodegroup_version_request).

Definition trace := list event.

(** A request sent to a service. *)
Definition is_remote (ev : event) : bool :=
  match ev with
  | DescribeNodegroup _ _ _ | GetParameter _ _ | UpdateNodegroupVersion _ _ => true
  | _ => false
  end.

(** The one request that changes the cluster. *)
Definition is_update (ev : event) : bool :=
  match ev with
  | UpdateNodegroupVersion _ _ => true
  | _ => false
  end.

Definition remote_calls (t : trace) : list event := List.filter is_remote t.
Definition update_calls (t : trace) : list event := List.filter is_update t.

(** The exception the world answers a request with, if it does. *)
Definition failure (w : world) (ev : event) : option exn :=
  match ev with
  | Log _ _ => None
  | NewClient service region => boto3_client w service region
  | DescribeNodegroup c cl ng =>
      match describe_nodegroup w c cl ng with inl e => Some e | inr _ => None end
  | GetParameter c name =>
      match get_parameter w c name with inl e => Some e | inr _ => None end
  | UpdateNodegroupVersion c req =>
      match update_nodegroup_version w c req with inl e => Some e | inr _ => None end
  end.

(** ** The monad of the handler *)

(** How a block of statements ends. *)
Inductive outcome (A : Type) :=
| Normal (a : A)
| Return (r : response)
| Raise (e : exn).
Arguments Normal {A} a.
Arguments Return {A} r.
Arguments Raise {A} e.

Definition M (A : Type) : Type := trace -> outcome A * trace.

#[global] Instance M_ret : MRet M := fun A a t => (Normal a, t).

#[global] Instance M_bind : MBind M := fun A B f m t =>
  match m t with
  | (Normal a, t') => f a t'
  | (Return r, t') => (Return r, t')
  | (Raise e, t') => (Raise e, t')
  end.

Definition return_ {A} (r : response) : M A := fun t => (Return r, t).
Definition raise {A} (e : exn) : M A := fun t => (Raise e, t).
Definition emit (ev : event) : M unit := fun t => (Normal tt, t ++ [ev]).

(** [try: body except ...: handler]: [handler e] is [None] when no
    [except] clause matches [e], which then propagates. *)
Definition try_except {A} (body : M A) (handler : exn -> option (M A)) : M A :=
  fun t =>
    match body t with
    | (Raise e, t') =>
        match handler e with
        | Some h => h t'
        | None => (Raise e, t')
        end
    | r => r
    end.

(** A service answer as a statement. *)
Definition lift {A} (r : exn + A) : M A :=
  match r with
  | inl e => raise e
  | inr a => mret a
  end.

(** [d[key]] on a value that may lack the key. *)
Definition getitem {A} (o : option A) (key : string) : M A :=
  match o with
  | Some a => mret a
  | None => raise (KeyError key)
  end.

Definition logger_info (msg : string) : M unit := emit (Log INFO msg).
Definition logger_error (msg : string) : M unit := emit (Log ERROR msg).

Section Services.
Variable w : world.

(** [boto3.client(service, region_name=region)]. *)
Definition new_client (service region : string) : M client :=
  emit (NewClient service region);;
  match boto3_client w service region with
  | Some e => raise e
  | None => mret {| service_name := service; region_name := region |}
  end.

Definition call_describe_nodegroup (c : client) (clusterName nodegroupName : string)
  : M describe_nodegroup_response :=
  emit (DescribeNodegroup c clusterName nodegroupName);;
  lift (describe_nodegroup w c clusterName nodegroupName).

Definition call_get_parameter (c : client) (Name : string)
  : M get_parameter_response :=
  emit (GetParameter c Name);;
  lift (get_parameter w c Name).

Definition call_update_nodegroup_version
    (c : client) (req : update_nodegroup_version_request)
  : M update_nodegroup_version_response :=
  emit (UpdateNodegroupVersion c req);;
  lift (update_nodegroup_version w c req).
End Services.

(** ** Python truth values *)

(** [bool(v)] for the result of [os.environ.get(key)]: [None] and the
    empty string are false. *)
Definition truthy (v : option string) : bool :=
  match v with
  | Some s => negb (s =? "")%string
  | None => false
  end.

(** [all(iterable)]. *)
Definition all (l : list bool) : bool := forallb (fun b => b) l.

(** ** The handler *)

Definition ssm_parameter_path (k8s_version : string) : string :=
  "/aws/service/eks/optimized-ami/" +:+ k8s_version +:+
  "/amazon-linux-2/recommended/release_version".

Definition missing_env_message : string :=
  "Missing required environment variables: CLUSTER_NAME, NODEGROUP_NAME, or AWS_REGION".

Definition missing_env_response : response :=
  {| statusCode := 400;
     body := Json.dumps_str "Missing required environment variables" |}.

Definition up_to_date_response : response :=
  {| statusCode := 200; body := Json.dumps_str "Node group is up to date" |}.

Definition no_ami_response (k8s_version : string) : response :=
  {| statusCode := 400;
     body := Json.dumps_str ("No AMI found for Kubernetes version " +:+ k8s_version) |}.

Definition update_initiated_response (release update_id : string) : response :=
  {| statusCode := 200;
     body := Json.dumps_dict
       [("message", "Node group update initiated to AMI release version " +:+ release);
        ("updateId", update_id)] |}.

Definition not_found_response (cluster_name nodegroup_name : string) : response :=
  {| statusCode := 404;
     body := Json.dumps_str ("Cluster " +:+ cluster_name +:+ " or node group " +:+
                             nodegroup_name +:+ " not found") |}.

Definition invalid_parameters_response (error_message : string) : response :=
  {| statusCode := 400;
     body := Json.dumps_str ("Invalid parameters: " +:+ error_message) |}.

Definition error_updating_response (error_message : string) : response :=
  {| statusCode := 500;
     body := Json.dumps_str ("Error updating node group: " +:+ error_message) |}.

Definition unexpected_error_response (text : string) : response :=
  {| statusCode := 500;
     body := Json.dumps_str ("Unexpected error: " +:+ text) |}.

(** Steps 3 and 4, lines 54 to 79: compare, and update when the
    versions differ. *)
Definition check_and_update (w : world) (eks_client : client)
    (cluster_name nodegroup_name : string)
    (current_release_version latest_release_version : string) : M Empty_set :=
  if (current_release_version =? latest_release_version)%string then
    logger_info "Node group is already using the latest AMI release version";;
    return_ up_to_date_response
  else
    logger_info ("Updating node group to AMI release version " +:+
                 latest_release_version);;
    update_response ←
      call_update_nodegroup_version w eks_client
        {| req_clusterName := cluster_name;
           req_nodegroupName := nodegroup_name;
           req_version := None;
           req_releaseVersion := Some latest_release_version;
           req_force := Some false |};
    update ← getitem (un_update update_response) "update";
    update_id ← getitem (u_id update) "id";
    logger_info ("Update initiated with ID: " +:+ update_id);;
    return_ (update_initiated_response latest_release_version update_id).

(** The body of the outer [try], lines 25 to 79: steps 1 and 2, then
    [check_and_update]. *)
Definition try_body (w : world) (cluster_name nodegroup_name region : string)
  : M Empty_set :=
  eks_client ← new_client w "eks" region;
  ssm_client ← new_client w "ssm" region;
  logger_info ("Describing node group " +:+ nodegroup_name +:+
               " in cluster " +:+ cluster_name);;
  response ← call_describe_nodegroup w eks_client cluster_name nodegroup_name;
  nodegroup ← getitem (dn_nodegroup response) "nodegroup";
  current_k8s_version ← getitem (ng_version nodegroup) "version";
  let current_release_version := default "unknown" (ng_releaseVersion nodegroup) in
  logger_info ("Node group Kubernetes version: " +:+ current_k8s_version +:+
               ", Current release version: " +:+ current_release_version);;
  let ssm_parameter := ssm_parameter_path current_k8s_version in
  logger_info ("Querying SSM parameter: " +:+ ssm_parameter);;
  latest_release_version ←
    try_except
      (ssm_response ← call_get_parameter w ssm_client ssm_parameter;
       parameter ← getitem (gp_Parameter ssm_response) "Parameter";
       latest_release_version ← getitem (p_Value parameter) "Value";
       logger_info ("Latest AMI release version: " +:+ latest_release_version);;
       mret latest_release_version)
      (fun e =>
         match e with
         | ParameterNotFoundOf _ =>
             Some (logger_error ("SSM parameter " +:+ ssm_parameter +:+
                                 " not found. Kubernetes version " +:+
                                 current_k8s_version +:+ " may not be supported.");;
                   return_ (no_ami_response current_k8s_version))
         | _ => None
         end);
  check_and_update w eks_client cluster_name nodegroup_name
    current_release_version latest_release_version.

(** The clause [except ClientError as e], lines 81 to 99; [response] is
    [e.response].  The two subscripts of lines 82 and 83 come first, and
    what they raise is raised by the clause. *)
Definition except_ClientError (cluster_name nodegroup_name : string)
    (response : error_response) : M Empty_set :=
  error ← getitem (resp_Error response) "Error";
  error_code ← getitem (err_Code error) "Code";
  error ← getitem (resp_Error response) "Error";
  error_message ← getitem (err_Message error) "Message";
  logger_error ("ClientError: " +:+ error_code +:+ " - " +:+ error_message);;
  if (error_code =? "ResourceNotFoundException")%string then
    return_ (not_found_response cluster_name nodegroup_name)
  else if (error_code =? "InvalidParameterException")%string then
    return_ (invalid_parameters_response error_message)
  else
    return_ (error_updating_response error_message).

(** The clause [except Exception as e], lines 100 to 105; [text] is
    [str(e)]. *)
Definition except_Exception (text : string) : M Empty_set :=
  logger_error ("Unexpected error: " +:+ text);;
  return_ (unexpected_error_response text).

(** The two clauses in order; an exception neither matches goes on.
    [str] of a [KeyError] is the [repr] of its key (the keys the handler
    subscripts are plain words). *)
Definition except_clauses (cluster_name nodegroup_name : string) (e : exn)
  : option (M Empty_set) :=
  match e with
  | ClientErrorOf response | ParameterNotFoundOf response =>
      Some (except_ClientError cluster_name nodegroup_name response)
  | KeyError key => Some (except_Exception ("'" +:+ key +:+ "'"))
  | OtherException text => Some (except_Exception text)
  | BaseException _ => None
  end.

Definition lambda_handler {E C : Type} (w : world) (event : E) (context : C)
  : M Empty_set :=
  let cluster_name := environ w !! "CLUSTER_NAME" in
  let nodegroup_name := environ w !! "NODEGROUP_NAME" in
  let region := default "us-west-2" (environ w !! "AWS_REGION") in
  if negb (all [truthy cluster_name; truthy nodegroup_name; truthy (Some region)]) then
    logger_error missing_env_message;;
    return_ missing_env_response
  else
    match cluster_name, nodegroup_name with
    | Some cluster_name, Some nodegroup_name =>
        try_except (try_body w cluster_name nodegroup_name region)
                   (except_clauses cluster_name nodegroup_name)
    | _, _ =>
        (* not reached: [all] has checked that neither is [None] *)
        raise (OtherException "unreachable")
    end.

(** One invocation, from the empty trace. *)
Definition invoke (w : world) : outcome Empty_set * trace :=
  lambda_handler w tt tt [].


(** ** Vocabulary of the statements *)

Definition eks_client (region : string) : client :=
  {| service_name := "eks"; region_name := region |}.
Definition ssm_client (region : string) : client :=
  {| service_name := "ssm"; region_name := region |}.

(** The environment gives the cluster [c], the node group [n] and the
    region [r] (the fallback when [AWS_REGION] is unset), none empty. *)
Record configured (w : world) (c n r : string) : Prop := {
  cfg_cluster : environ w !! "CLUSTER_NAME" = Some c;
  cfg_cluster_ne : c <> "";
  cfg_nodegroup : environ w !! "NODEGROUP_NAME" = Some n;
  cfg_nodegroup_ne : n <> "";
  cfg_region : default "us-west-2" (environ w !! "AWS_REGION") = r;
  cfg_region_ne : r <> ""
}.

(** Both clients can be created for the region. *)
Definition clients_created (w : world) (r : string) : Prop :=
  boto3_client w "eks" r = None /\ boto3_client w "ssm" r = None.

(** The describe call answers with platform version [v] and current
    release version [cur] (['unknown'] when the answer has none). *)
Definition described (w : world) (c n r v cur : string) : Prop :=
  exists resp ng,
    describe_nodegroup w (eks_client r) c n = inr resp /\
    dn_nodegroup resp = Some ng /\
    ng_version ng = Some v /\
    default "unknown" (ng_releaseVersion ng) = cur.

(** The registry answers the lookup for platform version [v] with the
    recommended release version [latest]. *)
Definition recommended (w : world) (r v latest : string) : Prop :=
  exists resp p,
    get_parameter w (ssm_client r) (ssm_parameter_path v) = inr resp /\
    gp_Parameter resp = Some p /\
    p_Value p = Some latest.

(** Both versions are fetched. *)
Definition fetched (w : world) (c n r v cur latest : string) : Prop :=
  configured w c n r /\ clients_created w r /\
  described w c n r v cur /\ recommended w r v latest.

(** The request the handler sends to update to [release]. *)
Definition update_request (c n release : string) : update_nodegroup_version_request :=
  {| req_clusterName := c;
     req_nodegroupName := n;
     req_version := None;
     req_releaseVersion := Some release;
     req_force := Some false |}.

(** What a configured invocation has done when both versions are
    fetched. *)
Definition fetch_trace (c n r v cur latest : string) : trace :=
  [NewClient "eks" r;
   NewClient "ssm" r;
   Log INFO ("Describing node group " +:+ n +:+ " in cluster " +:+ c);
   DescribeNodegroup (eks_client r) c n;
   Log INFO ("Node group Kubernetes version: " +:+ v +:+
             ", Current release version: " +:+ cur);
   Log INFO ("Querying SSM parameter: " +:+ ssm_parameter_path v);
   GetParameter (ssm_client r) (ssm_parameter_path v);
   Log INFO ("Latest AMI release version: " +:+ latest)].

(** The update to [release] is accepted, with tracking identifier [uid]. *)
Definition update_accepted (w : world) (c n r release uid : string) : Prop :=
  exists resp u,
    update_nodegroup_version w (eks_client r) (update_request c n release) = inr resp /\
    un_update resp = Some u /\
    u_id u = Some uid.

(** The code and the message of a [ClientError] that carries both. *)
Definition error_fields (e : exn) : option (string * string) :=
  match e with
  | ClientErrorOf response | ParameterNotFoundOf response =>
      match resp_Error response with
      | Some error =>
          match err_Code error, err_Message error with
          | Some code, Some message => Some (code, message)
          | _, _ => None
          end
      | None => None
      end
  | _ => None
  end.

(** An exception the [except] clauses can turn into a response: a
    [ClientError] with both fields, or any other [Exception]. *)
Definition well_formed (e : exn) : bool :=
  match e with
  | ClientErrorOf _ | ParameterNotFoundOf _ => bool_decide (is_Some (error_fields e))
  | KeyError _ | OtherException _ => true
  | BaseException _ => false
  end.

(** The failure is a [ParameterNotFound] of the registry lookup, the
    one the inner [try] answers. *)
Definition answered_by_inner_try (ev : event) (e : exn) : bool :=
  match ev, e with
  | GetParameter _ _, ParameterNotFoundOf _ => true
  | _, _ => false
  end.

(** The region an event concerns, if any. *)
Definition event_region (ev : event) : option string :=
  match ev with
  | Log _ _ => None
  | NewClient _ region => Some region
  | DescribeNodegroup c _ _ | GetParameter c _ | UpdateNodegroupVersion c _ =>
      Some (region_name c)
  end.

(** [needle in hay]. *)
Fixpoint contains (needle hay : string) : bool :=
  String.prefix needle hay ||
  match hay with
  | "" => false
  | String _ hay' => contains needle hay'
  end.

(** The variables the handler reads without a default. *)
Definition required_variables : list string := ["CLUSTER_NAME"; "NODEGROUP_NAME"].

(** The body of the response names every required variable that is
    missing from the environment. *)
Definition names_missing_fields (w : world) : Prop :=
  forall r t, invoke w = (Return r, t) ->
  forall k, k ∈ required_variables -> environ w !! k = None ->
  contains k (body r) = true.

(** The one line logged when the configuration is rejected. *)
Definition missing_env_log : event := Log ERROR missing_env_message.

(** ** Sample worlds *)

(** The environment of the deployment notes, with [AWS_REGION] unset. *)
Definition sample_environ : gmap string string :=
  {[ "CLUSTER_NAME" := "my-eks-cluster"; "NODEGROUP_NAME" := "my-eks-nodegroup" ]}.

(** A world in which the clients are created, the describe call answers
    [describe], the registry answers [lookup] and every update is
    accepted. *)
Definition sample_world (env : gmap string string)
    (describe : exn + nodegroup_info) (lookup : exn + string) : world :=
  {| environ := env;
     boto3_client := fun _ _ => None;
     describe_nodegroup := fun _ _ _ =>
       match describe with
       | inl e => inl e
       | inr ng => inr {| dn_nodegroup := Some ng |}
       end;
     get_parameter := fun _ _ =>
       match lookup with
       | inl e => inl e
       | inr value => inr {| gp_Parameter := Some {| p_Value := Some value |} |}
       end;
     update_nodegroup_version := fun _ _ =>
       inr {| un_update := Some {| u_id := Some "a1b2c3" |} |} |}.

Definition nodegroup_1_26 (release : option string) : nodegroup_info :=
  {| ng_version := Some "1.26"; ng_releaseVersion := release |}.

(** Release 1.26.12-20240307 running, 1.26.12-20240329 recommended. *)
Definition w_outdated : world :=
  sample_world sample_environ
    (inr (nodegroup_1_26 (Some "1.26.12-20240307"))) (inr "1.26.12-20240329").

(** The recommended release already running. *)
Definition w_current : world :=
  sample_world sample_environ
    (inr (nodegroup_1_26 (Some "1.26.12-20240329"))) (inr "1.26.12-20240329").

(** A release newer than the recommended one running. *)
Definition w_ahead : world :=
  sample_world sample_environ
    (inr (nodegroup_1_26 (Some "1.26.12-20240329"))) (inr "1.26.12-20240307").

(** A describe answer without [releaseVersion]. *)
Definition w_no_release : world :=
  sample_world sample_environ (inr (nodegroup_1_26 None)) (inr "1.26.12-20240329").

(** The same, with a registry that recommends the literal 'unknown'. *)
Definition w_unknown_recommended : world :=
  sample_world sample_environ (inr (nodegroup_1_26 None)) (inr "unknown").

Definition w_no_cluster : world :=
  sample_world {[ "NODEGROUP_NAME" := "my-eks-nodegroup" ]}
    (inr (nodegroup_1_26 (Some "1.26.12-20240307"))) (inr "1.26.12-20240329").

Definition w_no_nodegroup : world :=
  sample_world {[ "CLUSTER_NAME" := "my-eks-cluster" ]}
    (inr (nodegroup_1_26 (Some "1.26.12-20240307"))) (inr "1.26.12-20240329").

Definition w_not_found : world :=
  sample_world sample_environ
    (inl (ClientError "ResourceNotFoundException" "No node group found"))
    (inr "1.26.12-20240329").

(** A describe call that fails with a [ClientError] built on an empty
    dict: [ClientError({}, 'DescribeNodegroup')]. *)
Definition w_bare_client_error : world :=
  sample_world sample_environ
    (inl (ClientErrorOf {| resp_Error := None |})) (inr "1.26.12-20240329").

Definition w_unsupported : world :=
  sample_world sample_environ
    (inr (nodegroup_1_26 (Some "1.26.12-20240307")))
    (inl (ParameterNotFound "Parameter not found")).

(** ** Vocabulary of the further properties *)

(** A line logged at level ERROR. *)
Definition is_error_log (ev : event) : bool :=
  match ev with
  | Log ERROR _ => true
  | _ => false
  end.

Definition error_logs (t : trace) : list event := List.filter is_error_log t.

(** A character between [' '] and ['~']. *)
Definition printable_char (c : ascii) : bool :=
  let n := N_of_ascii c in ((32 <=? n) && (n <=? 126))%N.

Fixpoint printable (s : string) : bool :=
  match s with
  | "" => true
  | String c s' => printable_char c && printable s'
  end.

(** The world in which the node group runs [release] and nothing else
    has changed: what the describe call answers once an update to
    [release] is carried out. *)
Definition with_release (w : world) (release : string) : world :=
  {| environ := environ w;
     boto3_client := boto3_client w;
     describe_nodegroup := fun cl c n =>
       match describe_nodegroup w cl c n with
       | inl e => inl e
       | inr resp =>
           inr {| dn_nodegroup :=
                    match dn_nodegroup resp with
                    | Some ng =>
                        Some {| ng_version := ng_version ng;
                                ng_releaseVersion := Some release |}
                    | None => None
                    end |}
       end;
     get_parameter := get_parameter w;
     update_nodegroup_version := update_nodegroup_version w |}.

(** Sample worlds with a region set, a client that cannot be created,
    and answers that lack a key. *)
Definition w_region_set : world :=
  sample_world (<["AWS_REGION" := "eu-central-1"]> sample_environ)
    (inr (nodegroup_1_26 (Some "1.26.12-20240307"))) (inr "1.26.12-20240329").

Definition w_region_empty : world :=
  sample_world (<["AWS_REGION" := ""]> sample_environ)
    (inr (nodegroup_1_26 (Some "1.26.12-20240307"))) (inr "1.26.12-20240329").

Definition w_bad_region : world :=
  {| environ := <["AWS_REGION" := "us west"]> sample_environ;
     boto3_client := fun _ _ => Some (OtherException "Provided region_name is not valid");
     describe_nodegroup := describe_nodegroup w_outdated;
     get_parameter := get_parameter w_outdated;
     update_nodegroup_version := update_nodegroup_version w_outdated |}.

Definition w_no_version : world :=
  sample_world sample_environ
    (inr {| ng_version := None; ng_releaseVersion := Some "1.26.12-20240307" |})
    (inr "1.26.12-20240329").

Definition w_no_value : world :=
  {| environ := sample_environ;
     boto3_client := fun _ _ => None;
     describe_nodegroup := describe_nodegroup w_outdated;
     get_parameter := fun _ _ => inr {| gp_Parameter := Some {| p_Value := None |} |};
     update_nodegroup_version := update_nodegroup_version w_outdated |}.

Definition w_no_update_id : world :=
  {| environ := sample_environ;
     boto3_client := fun _ _ => None;
     describe_nodegroup := describe_nodegroup w_outdated;
     get_parameter := get_parameter w_outdated;
     update_nodegroup_version := fun _ _ => inr {| un_update := Some {| u_id := None |} |} |}.

(** A describe call that fails with a message holding a quote, a
    backslash, a line feed and a character above ['~']. *)
Definition odd_message : string :=
  "Rate " +:+ String "034" (String "092" (String "010" (String "233" " exceeded"))).

Definition w_odd_message : world :=
  sample_world sample_environ
    (inl (ClientError "ThrottlingException" odd_message)) (inr "1.26.12-20240329").

Definition w_custom_ami : world :=
  {| environ := sample_environ;
     boto3_client := fun _ _ => None;
     describe_nodegroup := describe_nodegroup w_outdated;
     get_parameter := get_parameter w_outdated;
     update_nodegroup_version := fun _ _ =>
       inl (ClientError "InvalidParameterException" "Release version is not supported") |}.

(** ** Proof automation *)

Ltac atomic x :=
  lazymatch x with
  | context [match _ with _ => _ end] => fail
  | _ => idtac
  end.

(** Case analysis on whatever blocks the evaluation of the handler. *)
Ltac crunch :=
  repeat (cbn -[String.append lookup] in *;
          match goal with
          | |- context [match ?x with _ => _ end] => atomic x; destruct x eqn:?
          end);
  cbn -[String.append lookup] in *.

(** Boolean string tests as propositions. *)
Ltac eqb_props :=
  repeat match goal with
         | H : (_ =? _)%string = true |- _ => apply String.eqb_eq in H
         | H : (_ =? _)%string = false |- _ => apply String.eqb_neq in H
         end.

Lemma Forall_events (P : event -> Prop) (t : trace) :
  Forall P t -> forall ev, ev ∈ t -> P ev.
Proof. intros H. now apply Forall_forall. Qed.

(** A property of every event of an explicit trace, event by event. *)
Ltac each_event :=
  match goal with
  | |- forall ev, ev ∈ ?t -> @?P ev => apply (Forall_events P t)
  end;
  repeat apply Forall_cons_2; try apply Forall_nil_2.

(** What the world answered to the event at hand. *)
Ltac answer Hf :=
  cbn in Hf;
  repeat match goal with
         | H : ?x = _ |- _ =>
             lazymatch H with Hf => fail | _ => idtac end;
             lazymatch type of Hf with context [x] => rewrite H in Hf end
         end.

(** Evaluation along the answers the hypotheses fix. *)
Ltac follow :=
  repeat (cbn -[String.append lookup] in *;
          match goal with
          | H : ?x = _ |- context [match ?x with _ => _ end] => rewrite H
          end);
  cbn -[String.append lookup] in *.

(** The hypotheses of a statement, on a sample world. *)
Ltac sample_configured :=
  split; [reflexivity | discriminate | reflexivity | discriminate
         | reflexivity | discriminate].
Ltac sample_answers := do 2 eexists; repeat split; reflexivity.
Ltac sample_fetched :=
  split; [sample_configured|]; split; [split; reflexivity|];
  split; sample_answers.

Ltac unfold_responses :=
  unfold missing_env_response, up_to_date_response, no_ami_response,
    update_initiated_response, not_found_response, invalid_parameters_response,
    error_updating_response, unexpected_error_response in *.

Ltac unfold_body :=
  unfold try_except, try_body, check_and_update, except_clauses, except_ClientError,
    except_Exception, new_client, call_describe_nodegroup,
    call_get_parameter, call_update_nodegroup_version, logger_info,
    logger_error, emit, lift, getitem, return_, raise, ssm_parameter_path,
    eks_client, ssm_client, update_request, ClientError, ParameterNotFound,
    service_error in *;
  unfold mbind, M_bind, mret, M_ret in *.

(** ** What a body carries *)

#[local] Arguments String.append !_ _ : simpl nomatch.

Lemma append_assoc (a b c : string) : (a +:+ b) +:+ c = a +:+ (b +:+ c).
Proof. induction a as [|x a IH]; simpl; congruence. Qed.

Lemma length_append (a b : string) :
  String.length (a +:+ b) = (String.length a + String.length b)%nat.
Proof. induction a as [|x a IH]; simpl; congruence. Qed.

(** Reading undoes the escape of one character. *)
Lemma read_string_escape_char (c : ascii) (tail text rest : string) :
  Json.read_string tail = Some (text, rest) ->
  Json.read_string (Json.escape_char c +:+ tail) = Some (String c text, rest).
Proof.
  intros H.
  destruct c as [[] [] [] [] [] [] [] []].
  all: match goal with
       | |- context [Json.escape_char ?c] =>
           let v := eval vm_compute in (Json.escape_char c) in
           change (Json.escape_char c) with v
       end.
  all: cbn; rewrite H; reflexivity.
Qed.

Lemma read_string_escape (s rest : string) :
  Json.read_string (Json.escape s +:+ String Json.dquote rest) = Some (s, rest).
Proof.
  induction s as [|c s IH]; [reflexivity|].
  cbn [Json.escape]. rewrite append_assoc.
  now apply read_string_escape_char.
Qed.

Lemma read_literal_dumps (s rest : string) :
  Json.read_literal (Json.dumps_str s +:+ rest) = Some (s, rest).
Proof.
  unfold Json.dumps_str. cbn [String.append Json.read_literal].
  rewrite Ascii.eqb_refl, append_assoc. apply read_string_escape.
Qed.

(** A string written by [json.dumps] reads back as itself. *)
Lemma loads_dumps_str (s : string) : Json.loads_str (Json.dumps_str s) = Some s.
Proof.
  unfold Json.loads_str.
  replace (Json.dumps_str s) with (Json.dumps_str s +:+ "").
  - now rewrite read_literal_dumps.
  - clear. induction (Json.dumps_str s) as [|c x IH]; cbn; [reflexivity | now rewrite IH].
Qed.

(** A raw line feed inside a literal is not read, and an escape above
    the model's characters is not either. *)
Example raw_control_is_rejected :
  Json.loads_str (String "034" (String "010" (String "034" ""))) = None /\
  Json.loads_str (String "034" (String "092" (String "u" (String "0" (String "1"
                   (String "0" (String "0" (String "034" "")))))))) = None /\
  Json.loads_str (String "034" (String "092" (String "u" (String "0" (String "0"
                   (String "E" (String "9" (String "034" "")))))))) =
    Some (String "233" "").
Proof. repeat split. Qed.

Lemma dumps_str_inj (s s' : string) : Json.dumps_str s = Json.dumps_str s' -> s = s'.
Proof.
  intros H. apply (f_equal Json.loads_str) in H.
  rewrite !loads_dumps_str in H. congruence.
Qed.

Lemma read_item_dumps (k v rest : string) :
  Json.read_literal (Json.dumps_str k +:+ ": " +:+ Json.dumps_str v +:+ rest) =
    Some (k, ": " +:+ Json.dumps_str v +:+ rest) /\
  Json.strip_prefix ": " (": " +:+ Json.dumps_str v +:+ rest) =
    Some (Json.dumps_str v +:+ rest) /\
  Json.read_literal (Json.dumps_str v +:+ rest) = Some (v, rest).
Proof. rewrite !read_literal_dumps. repeat split. Qed.

Lemma dumps_items_cons (k v : string) (kv : string * string) kvs :
  Json.dumps_items ((k, v) :: kv :: kvs) =
  Json.dumps_str k +:+ ": " +:+ Json.dumps_str v +:+ ", " +:+
  Json.dumps_items (kv :: kvs).
Proof. reflexivity. Qed.

Lemma read_items_dumps (kvs : list (string * string)) (fuel : nat) :
  kvs <> [] -> (length kvs <= fuel)%nat ->
  Json.read_items fuel (Json.dumps_items kvs +:+ "}") = Some kvs.
Proof.
  revert fuel. induction kvs as [|[k v] kvs IH]; intros fuel Hne Hlen; [congruence|].
  destruct fuel as [|fuel]; [cbn in Hlen; lia|].
  destruct kvs as [|kv kvs].
  - cbn [Json.dumps_items Json.read_items].
    rewrite !append_assoc.
    destruct (read_item_dumps k v "}") as (-> & -> & ->). reflexivity.
  - rewrite dumps_items_cons. cbn [Json.read_items].
    rewrite !append_assoc.
    destruct (read_item_dumps k v
                (", " +:+ Json.dumps_items (kv :: kvs) +:+ "}"))
      as (-> & -> & ->).
    cbn [String.append Json.strip_prefix Ascii.eqb Bool.eqb String.eqb].
    rewrite IH; [reflexivity | discriminate | cbn in *; lia].
Qed.

Lemma length_dumps_items (kvs : list (string * string)) :
  (length kvs <= String.length (Json.dumps_items kvs))%nat.
Proof.
  induction kvs as [|[k v] kvs IH]; [cbn; lia|].
  destruct kvs as [|kv kvs].
  - cbn. lia.
  - rewrite dumps_items_cons. unfold Json.dumps_str at 1.
    cbn [length] in *.
    repeat first [rewrite length_append | progress cbn [String.append String.length]].
    lia.
Qed.

(** An object written by [json.dumps] reads back as its items. *)
Lemma loads_dumps_dict (kvs : list (string * string)) :
  Json.loads_dict (Json.dumps_dict kvs) = Some kvs.
Proof.
  unfold Json.loads_dict, Json.dumps_dict.
  cbn [String.append Json.strip_prefix Ascii.eqb Bool.eqb].
  destruct kvs as [|kv kvs]; [reflexivity|].
  destruct (String.eqb_spec (Json.dumps_items (kv :: kvs) +:+ "}") "}") as [E|_].
  - exfalso. apply (f_equal String.length) in E. rewrite length_append in E.
    pose proof (length_dumps_items (kv :: kvs)). cbn in *. lia.
  - apply read_items_dumps; [discriminate|].
    rewrite length_append. pose proof (length_dumps_items (kv :: kvs)). lia.
Qed.

#[local] Arguments String.append : simpl never.

(** ** The configuration check *)

Lemma truthy_Some (s : string) : s <> "" -> truthy (Some s) = true.
Proof.
  intros H. unfold truthy.
  destruct (String.eqb_spec s ""); [contradiction | reflexivity].
Qed.

Lemma truthy_true (v : option string) :
  truthy v = true <-> exists s, v = Some s /\ s <> "".
Proof.
  split.
  - destruct v as [s|]; [|discriminate]. cbn.
    destruct (String.eqb_spec s ""); [discriminate|]. intros _. eauto.
  - intros (s & -> & Hs). now apply truthy_Some.
Qed.

Lemma configured_unique w c n r c' n' r' :
  configured w c n r -> configured w c' n' r' -> c = c' /\ n = n' /\ r = r'.
Proof. intros [] []. repeat split; congruence. Qed.

(** The check of line 17 passes exactly on a configured environment. *)
Lemma check_passes w :
  all [truthy (environ w !! "CLUSTER_NAME"); truthy (environ w !! "NODEGROUP_NAME");
       truthy (Some (default "us-west-2" (environ w !! "AWS_REGION")))] = true
  <-> exists c n r, configured w c n r.
Proof.
  unfold all. cbn [forallb]. rewrite !andb_true_iff, !truthy_true. split.
  - intros ((c & Hc & Hc') & (n & Hn & Hn') & (r & Hr & Hr') & _).
    exists c, n, r. split; auto. congruence.
  - intros (c & n & r & [Hc Hc' Hn Hn' Hr Hr']). repeat split; eauto.
    exists r. split; [congruence | assumption].
Qed.

(** A configured invocation runs the [try] statement. *)
Lemma invoke_configured w c n r :
  configured w c n r ->
  invoke w = try_except (try_body w c n r) (except_clauses c n) [].
Proof.
  intros H. unfold invoke, lambda_handler.
  rewrite (proj2 (check_passes w)) by eauto.
  destruct H as [Hc _ Hn _ Hr _]. rewrite Hc, Hn, Hr. reflexivity.
Qed.

(** Any other invocation stops at the check. *)
Lemma invoke_unconfigured w :
  (forall c n r, ~ configured w c n r) ->
  invoke w = (Return missing_env_response, [missing_env_log]).
Proof.
  intros H. unfold invoke, lambda_handler.
  destruct (all _) eqn:Hall; [|reflexivity].
  apply check_passes in Hall as (c & n & r & Hcfg). destruct (H _ _ _ Hcfg).
Qed.

Lemma invoke_cases w :
  (exists c n r, configured w c n r /\
     invoke w = try_except (try_body w c n r) (except_clauses c n) []) \/
  ((forall c n r, ~ configured w c n r) /\
     invoke w = (Return missing_env_response, [missing_env_log])).
Proof.
  destruct (all [truthy (environ w !! "CLUSTER_NAME");
                 truthy (environ w !! "NODEGROUP_NAME");
                 truthy (Some (default "us-west-2" (environ w !! "AWS_REGION")))])
    eqn:Hall.
  - apply check_passes in Hall as (c & n & r & Hcfg).
    left. exists c, n, r. split; [assumption | now apply invoke_configured].
  - assert (forall c n r, ~ configured w c n r) as Hno.
    { intros c n r Hcfg. rewrite (proj2 (check_passes w)) in Hall by eauto.
      discriminate. }
    right. split; [assumption | now apply invoke_unconfigured].
Qed.

(** ** The error policy *)

(** When every failure of the world is an [Exception], and a
    [ClientError] among them carries its code and message, the
    invocation ends by returning a response with status 200, 400, 404 or
    500. *)
Lemma returns_when_well_formed (w : world) :
  (forall ev e, failure w ev = Some e -> well_formed e = true) ->
  exists r t, invoke w = (Return r, t) /\ statusCode r ∈ [200; 400; 404; 500].
Proof.
  intros Hwf.
  destruct (invoke_cases w) as [(c & n & r & Hcfg & ->) | [_ ->]].
  - pose proof (Hwf (NewClient "eks" r)) as H1.
    pose proof (Hwf (NewClient "ssm" r)) as H2.
    pose proof (Hwf (DescribeNodegroup (eks_client r) c n)) as H3.
    pose proof (fun v => Hwf (GetParameter (ssm_client r) (ssm_parameter_path v))) as H4.
    pose proof (fun l => Hwf (UpdateNodegroupVersion (eks_client r) (update_request c n l))) as H5.
    clear Hwf. unfold_body. cbn [failure] in *. crunch.
    all: try (do 2 eexists; split; [reflexivity|]; unfold_responses; cbn; set_solver).
    all: exfalso.
    all: repeat match goal with
           | H : forall e, Some _ = Some e -> _ |- _ => specialize (H _ eq_refl)
           | H : forall e, ?x = Some e -> _, E : ?x = Some _ |- _ =>
               specialize (H _ E)
           | H : forall (v : string) e, _ -> _, E : _ = inl _ |- _ =>
               let K := fresh in
               pose proof (H _ _ ltac:(rewrite E; reflexivity)) as K; clear H
           | H : forall e, match ?x with _ => _ end = Some e -> _, E : ?x = inl _ |- _ =>
               rewrite E in H; specialize (H _ eq_refl)
           end.
    all: subst; cbn in *; unfold error_fields in *; cbn in *;
      repeat match goal with
             | E : ?x = _, H : context [?x] |- _ => rewrite E in H
             end; cbn in *; try discriminate; try congruence.
  - do 2 eexists. split; [reflexivity|]. cbn. set_solver.
Qed.

(** C7, at a failing input.  When the describe call fails with a
    [ClientError] whose response has no ['Error'] key, the subscript of
    line 82 raises [KeyError('Error')] inside the [except ClientError]
    clause; the clause [except Exception] beside it does not apply to
    it, and the exception leaves the handler: no response is returned
    and no error is logged. *)
Theorem C7_malformed_client_error_escapes :
  invoke w_bare_client_error =
    (Raise (KeyError "Error"),
     [NewClient "eks" "us-west-2"; NewClient "ssm" "us-west-2";
      Log INFO "Describing node group my-eks-nodegroup in cluster my-eks-cluster";
      DescribeNodegroup (eks_client "us-west-2") "my-eks-cluster" "my-eks-nodegroup"]).
Proof. reflexivity. Qed.

(** ** The two fetches *)

(** Once both versions are fetched, what remains is the comparison. *)
Lemma invoke_fetched w c n r v cur latest :
  fetched w c n r v cur latest ->
  invoke w =
    try_except (check_and_update w (eks_client r) c n cur latest)
               (except_clauses c n) (fetch_trace c n r v cur latest).
Proof.
  intros (Hcfg & [He Hs] & (dr & ng & Hd & Hng & Hv & Hcur) &
          (pr & p & Hg & Hp & Hval)).
  rewrite (invoke_configured _ _ _ _ Hcfg).
  match goal with |- _ = ?x => set (rhs := x) end.
  unfold try_except, try_body, new_client, call_describe_nodegroup,
    call_get_parameter, emit, mbind, M_bind.
  rewrite He, Hs. cbn -[String.append check_and_update].
  fold (eks_client r). rewrite Hd. cbn -[String.append check_and_update].
  rewrite Hng. cbn -[String.append check_and_update].
  rewrite Hv. cbn -[String.append check_and_update].
  fold (ssm_client r). rewrite Hg. cbn -[String.append check_and_update].
  rewrite Hp. cbn -[String.append check_and_update].
  rewrite Hval, Hcur. reflexivity.
Qed.

(** ** The comparison *)

(** C3. When the fetched current release version and the fetched
    recommended version are the same string, the invocation returns
    status 200 with the body 'Node group is up to date', and its only
    requests are the describe call and the registry lookup: no update. *)
Theorem C3_up_to_date (w : world) (c n r v cur latest : string) :
  fetched w c n r v cur latest ->
  cur = latest ->
  exists t,
    invoke w = (Return up_to_date_response, t) /\
    statusCode up_to_date_response = 200 /\
    body up_to_date_response = Json.dumps_str "Node group is up to date" /\
    update_calls t = [] /\
    remote_calls t =
      [DescribeNodegroup (eks_client r) c n;
       GetParameter (ssm_client r) (ssm_parameter_path v)].
Proof.
  intros Hf ->. rewrite (invoke_fetched _ _ _ _ _ _ _ Hf).
  unfold_body. rewrite String.eqb_refl. cbn -[String.append].
  eexists. repeat split; reflexivity.
Qed.

Lemma C3_up_to_date_witness :
  exists t,
    invoke w_current = (Return up_to_date_response, t) /\
    statusCode up_to_date_response = 200 /\
    body up_to_date_response = Json.dumps_str "Node group is up to date" /\
    update_calls t = [] /\
    remote_calls t =
      [DescribeNodegroup (eks_client "us-west-2") "my-eks-cluster" "my-eks-nodegroup";
       GetParameter (ssm_client "us-west-2") (ssm_parameter_path "1.26")].
Proof.
  apply (C3_up_to_date w_current "my-eks-cluster" "my-eks-nodegroup" "us-west-2"
           "1.26" "1.26.12-20240329" "1.26.12-20240329");
    [sample_fetched | reflexivity].
Defined.

(** The comparison is equality of strings, not an order on versions: a
    node group ahead of the recommendation is moved to it. *)
Example ahead_is_updated :
  update_calls (invoke w_ahead).2 =
    [UpdateNodegroupVersion (eks_client "us-west-2")
       (update_request "my-eks-cluster" "my-eks-nodegroup" "1.26.12-20240307")].
Proof. reflexivity. Qed.

(** C2. When the two fetched versions differ and the update call is
    accepted, the invocation issues exactly one update request, with
    [force=False], no Kubernetes version and the recommended release
    version, and returns status 200 with the tracking identifier of the
    accepted update and the target version in its body. *)
Theorem C2_update_initiated (w : world) (c n r v cur latest uid : string) :
  fetched w c n r v cur latest ->
  cur <> latest ->
  update_accepted w c n r latest uid ->
  exists t req,
    invoke w = (Return (update_initiated_response latest uid), t) /\
    update_calls t = [UpdateNodegroupVersion (eks_client r) req] /\
    req_force req = Some false /\
    req_version req = None /\
    req_releaseVersion req = Some latest /\
    req_clusterName req = c /\ req_nodegroupName req = n /\
    remote_calls t =
      [DescribeNodegroup (eks_client r) c n;
       GetParameter (ssm_client r) (ssm_parameter_path v);
       UpdateNodegroupVersion (eks_client r) req] /\
    statusCode (update_initiated_response latest uid) = 200 /\
    Json.loads_dict (body (update_initiated_response latest uid)) =
      Some [("message", "Node group update initiated to AMI release version " +:+ latest);
            ("updateId", uid)].
Proof.
  intros Hf Hne (ur & u & Hu & Hur & Hid).
  rewrite (invoke_fetched _ _ _ _ _ _ _ Hf).
  apply String.eqb_neq in Hne.
  unfold_body. follow.
  do 2 eexists. do 8 (split; [reflexivity|]). split; [reflexivity|].
  apply loads_dumps_dict.
Qed.

Lemma C2_update_initiated_witness :
  exists t req,
    invoke w_outdated = (Return (update_initiated_response "1.26.12-20240329" "a1b2c3"), t) /\
    update_calls t = [UpdateNodegroupVersion (eks_client "us-west-2") req] /\
    req_force req = Some false /\
    req_version req = None /\
    req_releaseVersion req = Some "1.26.12-20240329" /\
    req_clusterName req = "my-eks-cluster" /\
    req_nodegroupName req = "my-eks-nodegroup" /\
    remote_calls t =
      [DescribeNodegroup (eks_client "us-west-2") "my-eks-cluster" "my-eks-nodegroup";
       GetParameter (ssm_client "us-west-2") (ssm_parameter_path "1.26");
       UpdateNodegroupVersion (eks_client "us-west-2") req] /\
    statusCode (update_initiated_response "1.26.12-20240329" "a1b2c3") = 200 /\
    Json.loads_dict (body (update_initiated_response "1.26.12-20240329" "a1b2c3")) =
      Some [("message", "Node group update initiated to AMI release version " +:+
                        "1.26.12-20240329");
            ("updateId", "a1b2c3")].
Proof.
  apply (C2_update_initiated w_outdated "my-eks-cluster" "my-eks-nodegroup"
           "us-west-2" "1.26" "1.26.12-20240307" "1.26.12-20240329" "a1b2c3");
    [sample_fetched | discriminate | sample_answers].
Defined.

(** C10. When the describe answer has no [releaseVersion], the current
    release version is the string 'unknown': it is what the handler logs
    and compares.  With a recommended version other than that literal,
    the invocation issues the update to the recommended version and does
    not report 'up to date'. *)
Theorem C10_unknown_release (w : world) (c n r v latest : string)
    (resp : describe_nodegroup_response) (ng : nodegroup_info) :
  configured w c n r ->
  clients_created w r ->
  describe_nodegroup w (eks_client r) c n = inr resp ->
  dn_nodegroup resp = Some ng ->
  ng_version ng = Some v ->
  ng_releaseVersion ng = None ->
  recommended w r v latest ->
  latest <> "unknown" ->
  exists out t,
    invoke w = (out, t) /\
    Log INFO ("Node group Kubernetes version: " +:+ v +:+
              ", Current release version: unknown") ∈ t /\
    update_calls t =
      [UpdateNodegroupVersion (eks_client r) (update_request c n latest)] /\
    out <> Return up_to_date_response.
Proof.
  intros Hcfg Hcl Hd Hng Hv Hrel Hrec Hne.
  assert (fetched w c n r v "unknown" latest) as Hf.
  { split; [assumption|]. split; [assumption|]. split; [|assumption].
    exists resp, ng. rewrite Hrel. auto. }
  rewrite (invoke_fetched _ _ _ _ _ _ _ Hf).
  assert (("unknown" =? latest)%string = false) as Hneq
    by (apply String.eqb_neq; congruence).
  unfold_body. follow. crunch.
  all: do 2 eexists; split; [reflexivity|].
  all: split; [set_solver|]; split; [reflexivity | discriminate].
Qed.

Lemma C10_unknown_release_witness :
  exists out t,
    invoke w_no_release = (out, t) /\
    Log INFO ("Node group Kubernetes version: " +:+ "1.26" +:+
              ", Current release version: unknown") ∈ t /\
    update_calls t =
      [UpdateNodegroupVersion (eks_client "us-west-2")
         (update_request "my-eks-cluster" "my-eks-nodegroup" "1.26.12-20240329")] /\
    out <> Return up_to_date_response.
Proof.
  apply (C10_unknown_release w_no_release "my-eks-cluster" "my-eks-nodegroup"
           "us-west-2" "1.26" "1.26.12-20240329"
           {| dn_nodegroup := Some (nodegroup_1_26 None) |} (nodegroup_1_26 None));
    [sample_configured | split; reflexivity | reflexivity | reflexivity
    | reflexivity | reflexivity | sample_answers | discriminate].
Defined.

(** Only a registry that recommends the literal 'unknown' makes such a
    node group pass for up to date. *)
Example unknown_recommended_is_up_to_date :
  (invoke w_unknown_recommended).1 = Return up_to_date_response /\
  update_calls (invoke w_unknown_recommended).2 = [].
Proof. split; reflexivity. Qed.

(** ** The update request *)

(** C1. In every invocation at most one update request is issued; one is
    issued exactly when both versions are fetched and differ; and when
    any earlier step fails (creating a client, the describe call, the
    registry lookup) none is issued. *)
Theorem C1_update_iff_versions_differ (w : world) :
  (length (update_calls (invoke w).2) <= 1)%nat /\
  (update_calls (invoke w).2 <> [] <->
     exists c n r v cur latest, fetched w c n r v cur latest /\ cur <> latest) /\
  (forall ev, ev ∈ (invoke w).2 -> is_update ev = false ->
     forall e, failure w ev = Some e -> update_calls (invoke w).2 = []).
Proof.
  destruct (invoke_cases w) as [(c & n & r & Hcfg & ->) | [Hno ->]].
  - unfold_body. crunch.
    all: split; [cbn; lia|].
    all: split.
    all: try (intros; reflexivity).
    all: try (each_event; intros Hupd ? Hf; answer Hf; discriminate).
    all: try (split; [intros H; exfalso; apply H; reflexivity|]).
    all: try (intros (c' & n' & r' & v' & cur' & latest' &
                      (Hcfg' & [He Hs] & (dr & ng & Hd & Hng & Hv & Hcur) &
                       (pr & par & Hg & Hp & Hval)) & Hne);
              destruct (configured_unique _ _ _ _ _ _ _ Hcfg Hcfg') as (<- & <- & <-);
              unfold_body; eqb_props; exfalso; simplify_eq; congruence).
    all: split; [intros _ | intros _ H; discriminate H].
    all: eqb_props;
      match goal with
      | Hv : ng_version ?ng = Some ?v, Hl : p_Value _ = Some ?l |- _ =>
          exists c, n, r, v, (default "unknown" (ng_releaseVersion ng)), l
      end; split; [|assumption].
    all: split; [eassumption|]; split; [split; eassumption|].
    all: unfold described, recommended; unfold_body.
    all: split; do 2 eexists; repeat split; first [eassumption | reflexivity].
  - cbn. split; [lia|]. split.
    + split; [intros H; exfalso; apply H; reflexivity|].
      intros (c & n & r & _ & _ & _ & (Hcfg & _) & _). destruct (Hno _ _ _ Hcfg).
    + reflexivity.
Qed.

Example outdated_updates_once :
  length (update_calls (invoke w_outdated).2) = 1%nat.
Proof. reflexivity. Qed.

Example not_found_updates_nothing :
  update_calls (invoke w_not_found).2 = [].
Proof. reflexivity. Qed.

(** ** The configuration *)

(** C4. When [CLUSTER_NAME] or [NODEGROUP_NAME] is absent from the
    environment, the invocation returns status 400 with the 'missing
    environment variables' body, and all it has done is log one error
    line: no client is created and no request is sent. *)
Theorem C4_missing_configuration (w : world) :
  environ w !! "CLUSTER_NAME" = None \/ environ w !! "NODEGROUP_NAME" = None ->
  exists t,
    invoke w = (Return missing_env_response, t) /\
    statusCode missing_env_response = 400 /\
    t = [missing_env_log] /\
    remote_calls t = [].
Proof.
  intros H. exists [missing_env_log]. split; [|repeat split].
  apply invoke_unconfigured. intros c n r [Hc _ Hn _ _ _].
  destruct H; congruence.
Qed.

Lemma C4_missing_configuration_witness :
  exists t,
    invoke w_no_cluster = (Return missing_env_response, t) /\
    statusCode missing_env_response = 400 /\
    t = [missing_env_log] /\
    remote_calls t = [].
Proof.
  apply (C4_missing_configuration w_no_cluster). left. reflexivity.
Defined.

(** A configured invocation never answers with the 'missing environment
    variables' response. *)
Lemma configured_not_missing w c n r :
  configured w c n r -> (invoke w).1 <> Return missing_env_response.
Proof.
  intros Hcfg. rewrite (invoke_configured _ _ _ _ Hcfg).
  unfold_body. crunch.
  all: intros H; cbn in H; discriminate H.
Qed.

(** Every client and every request of a configured invocation is for
    the configured region. *)
Lemma configured_region w c n r :
  configured w c n r ->
  exists t,
    (invoke w).2 = NewClient "eks" r :: t /\
    (forall ev, ev ∈ (invoke w).2 -> forall r', event_region ev = Some r' -> r' = r).
Proof.
  intros Hcfg. rewrite (invoke_configured _ _ _ _ Hcfg).
  unfold_body. crunch.
  all: eexists; split; [reflexivity|].
  all: each_event; cbn; congruence.
Qed.

(** C9. When [AWS_REGION] is unset the region is 'us-west-2' before the
    check of the required values: the 'missing environment variables'
    outcome then occurs only if the cluster or the node-group name is
    absent or empty, and otherwise the invocation goes on to create its
    clients and send its requests for 'us-west-2'. *)
Theorem C9_region_fallback (w : world) :
  environ w !! "AWS_REGION" = None ->
  ((invoke w).1 = Return missing_env_response <->
     truthy (environ w !! "CLUSTER_NAME") = false \/
     truthy (environ w !! "NODEGROUP_NAME") = false) /\
  (truthy (environ w !! "CLUSTER_NAME") = true ->
   truthy (environ w !! "NODEGROUP_NAME") = true ->
   exists t,
     (invoke w).2 = NewClient "eks" "us-west-2" :: t /\
     (forall ev, ev ∈ (invoke w).2 ->
        forall r, event_region ev = Some r -> r = "us-west-2")).
Proof.
  intros Hr.
  assert (forall c n, environ w !! "CLUSTER_NAME" = Some c -> c <> "" ->
                 environ w !! "NODEGROUP_NAME" = Some n -> n <> "" ->
                 configured w c n "us-west-2") as Hcfg.
  { intros c n Hc Hc' Hn Hn'. split; try assumption.
    - rewrite Hr. reflexivity.
    - discriminate. }
  split; [split|].
  - intros Hout.
    destruct (truthy (environ w !! "CLUSTER_NAME")) eqn:Tc; [|now left].
    destruct (truthy (environ w !! "NODEGROUP_NAME")) eqn:Tn; [|now right].
    apply truthy_true in Tc as (c & Hc & Hc'), Tn as (n & Hn & Hn').
    destruct (configured_not_missing _ _ _ _ (Hcfg c n Hc Hc' Hn Hn') Hout).
  - intros H. rewrite invoke_unconfigured; [reflexivity|].
    intros c n r [Hc Hc' Hn Hn' _ _].
    rewrite Hc, Hn, !truthy_Some in H by assumption. destruct H; discriminate.
  - intros Tc Tn.
    apply truthy_true in Tc as (c & Hc & Hc'), Tn as (n & Hn & Hn').
    apply (configured_region w c n). auto.
Qed.

Lemma C9_region_fallback_witness :
  ((invoke w_outdated).1 = Return missing_env_response <->
     truthy (environ w_outdated !! "CLUSTER_NAME") = false \/
     truthy (environ w_outdated !! "NODEGROUP_NAME") = false) /\
  (truthy (environ w_outdated !! "CLUSTER_NAME") = true ->
   truthy (environ w_outdated !! "NODEGROUP_NAME") = true ->
   exists t,
     (invoke w_outdated).2 = NewClient "eks" "us-west-2" :: t /\
     (forall ev, ev ∈ (invoke w_outdated).2 ->
        forall r, event_region ev = Some r -> r = "us-west-2")).
Proof.
  apply (C9_region_fallback w_outdated). reflexivity.
Defined.

(** The claim C8 makes fails where only [CLUSTER_NAME] is missing: the
    body does not contain that name, and it is the very body returned
    where only [NODEGROUP_NAME] is missing. *)
Lemma C8_names_missing_fields_counterexample :
  ~ names_missing_fields w_no_cluster /\
  (invoke w_no_cluster).1 = (invoke w_no_nodegroup).1.
Proof.
  split; [|reflexivity].
  intros H.
  specialize (H missing_env_response [missing_env_log] eq_refl "CLUSTER_NAME").
  assert (contains "CLUSTER_NAME" (body missing_env_response) = true) as Hc.
  { apply H; [unfold required_variables; set_solver | reflexivity]. }
  discriminate Hc.
Qed.

(** C8, as the code has it.  When a required value is absent the body is
    the fixed text 'Missing required environment variables', which names
    none of the variables, whichever is missing; the names appear in the
    one logged line, which always lists all three. *)
Theorem C8_fixed_payload (w : world) :
  environ w !! "CLUSTER_NAME" = None \/ environ w !! "NODEGROUP_NAME" = None ->
  exists r,
    invoke w = (Return r, [Log ERROR missing_env_message]) /\
    body r = Json.dumps_str "Missing required environment variables" /\
    contains "CLUSTER_NAME" (body r) = false /\
    contains "NODEGROUP_NAME" (body r) = false /\
    contains "AWS_REGION" (body r) = false /\
    contains "CLUSTER_NAME" missing_env_message = true /\
    contains "NODEGROUP_NAME" missing_env_message = true /\
    contains "AWS_REGION" missing_env_message = true.
Proof.
  intros H. exists missing_env_response. split; [|repeat split].
  apply invoke_unconfigured. intros c n r [Hc _ Hn _ _ _].
  destruct H; congruence.
Qed.

Lemma C8_fixed_payload_witness :
  exists r,
    invoke w_no_nodegroup = (Return r, [Log ERROR missing_env_message]) /\
    body r = Json.dumps_str "Missing required environment variables" /\
    contains "CLUSTER_NAME" (body r) = false /\
    contains "NODEGROUP_NAME" (body r) = false /\
    contains "AWS_REGION" (body r) = false /\
    contains "CLUSTER_NAME" missing_env_message = true /\
    contains "NODEGROUP_NAME" missing_env_message = true /\
    contains "AWS_REGION" missing_env_message = true.
Proof.
  apply (C8_fixed_payload w_no_nodegroup). right. reflexivity.
Defined.

(** ** Failures of the lookups *)

(** C5. When the describe call fails with the error code
    [ResourceNotFoundException], the invocation returns status 404 with
    a body naming the cluster and the node group, and the describe call
    is its only request: no update. *)
Theorem C5_not_found (w : world) (c n r message : string) :
  configured w c n r ->
  clients_created w r ->
  describe_nodegroup w (eks_client r) c n =
    inl (ClientError "ResourceNotFoundException" message) ->
  exists t,
    invoke w = (Return (not_found_response c n), t) /\
    statusCode (not_found_response c n) = 404 /\
    body (not_found_response c n) =
      Json.dumps_str ("Cluster " +:+ c +:+ " or node group " +:+ n +:+ " not found") /\
    Json.loads_str (body (not_found_response c n)) =
      Some ("Cluster " +:+ c +:+ " or node group " +:+ n +:+ " not found") /\
    update_calls t = [] /\
    remote_calls t = [DescribeNodegroup (eks_client r) c n].
Proof.
  intros Hcfg [He Hs] Hd. rewrite (invoke_configured _ _ _ _ Hcfg).
  unfold_body. follow.
  eexists. do 3 (split; [reflexivity|]). split; [apply loads_dumps_str|].
  split; reflexivity.
Qed.

Lemma C5_not_found_witness :
  exists t,
    invoke w_not_found =
      (Return (not_found_response "my-eks-cluster" "my-eks-nodegroup"), t) /\
    statusCode (not_found_response "my-eks-cluster" "my-eks-nodegroup") = 404 /\
    body (not_found_response "my-eks-cluster" "my-eks-nodegroup") =
      Json.dumps_str ("Cluster " +:+ "my-eks-cluster" +:+ " or node group " +:+
                      "my-eks-nodegroup" +:+ " not found") /\
    Json.loads_str (body (not_found_response "my-eks-cluster" "my-eks-nodegroup")) =
      Some ("Cluster " +:+ "my-eks-cluster" +:+ " or node group " +:+
            "my-eks-nodegroup" +:+ " not found") /\
    update_calls t = [] /\
    remote_calls t =
      [DescribeNodegroup (eks_client "us-west-2") "my-eks-cluster" "my-eks-nodegroup"].
Proof.
  apply (C5_not_found w_not_found "my-eks-cluster" "my-eks-nodegroup" "us-west-2"
           "No node group found");
    [sample_configured | split; reflexivity | reflexivity].
Defined.

(** C6. When the registry has no parameter for the platform version of
    the node group, the invocation returns status 400 with a body naming
    that platform version, and sends no update request. *)
Theorem C6_unsupported_version (w : world) (c n r v cur message : string) :
  configured w c n r ->
  clients_created w r ->
  described w c n r v cur ->
  get_parameter w (ssm_client r) (ssm_parameter_path v) =
    inl (ParameterNotFound message) ->
  exists t,
    invoke w = (Return (no_ami_response v), t) /\
    statusCode (no_ami_response v) = 400 /\
    body (no_ami_response v) =
      Json.dumps_str ("No AMI found for Kubernetes version " +:+ v) /\
    Json.loads_str (body (no_ami_response v)) =
      Some ("No AMI found for Kubernetes version " +:+ v) /\
    update_calls t = [] /\
    remote_calls t =
      [DescribeNodegroup (eks_client r) c n;
       GetParameter (ssm_client r) (ssm_parameter_path v)].
Proof.
  intros Hcfg [He Hs] (dr & ng & Hd & Hng & Hv & Hcur) Hg.
  rewrite (invoke_configured _ _ _ _ Hcfg).
  unfold_body. follow.
  eexists. do 3 (split; [reflexivity|]). split; [apply loads_dumps_str|].
  split; reflexivity.
Qed.

Lemma C6_unsupported_version_witness :
  exists t,
    invoke w_unsupported = (Return (no_ami_response "1.26"), t) /\
    statusCode (no_ami_response "1.26") = 400 /\
    body (no_ami_response "1.26") =
      Json.dumps_str ("No AMI found for Kubernetes version " +:+ "1.26") /\
    Json.loads_str (body (no_ami_response "1.26")) =
      Some ("No AMI found for Kubernetes version " +:+ "1.26") /\
    update_calls t = [] /\
    remote_calls t =
      [DescribeNodegroup (eks_client "us-west-2") "my-eks-cluster" "my-eks-nodegroup";
       GetParameter (ssm_client "us-west-2") (ssm_parameter_path "1.26")].
Proof.
  apply (C6_unsupported_version w_unsupported "my-eks-cluster" "my-eks-nodegroup"
           "us-west-2" "1.26" "1.26.12-20240307" "Parameter not found");
    [sample_configured | split; reflexivity | sample_answers | reflexivity].
Defined.


(** * Further properties of [lambda_handler] *)

(** ** The configuration check, completely *)

(** X1. The invocation stops at the configuration check exactly when
    the cluster name or the node-group name is absent or empty, or
    [AWS_REGION] is set to the empty string; it has then done nothing
    but log the one error line. *)
Theorem X1_rejected_configurations (w : world) :
  ((invoke w).1 = Return missing_env_response <->
     truthy (environ w !! "CLUSTER_NAME") = false \/
     truthy (environ w !! "NODEGROUP_NAME") = false \/
     environ w !! "AWS_REGION" = Some "") /\
  ((invoke w).1 = Return missing_env_response ->
   (invoke w).2 = [missing_env_log]).
Proof.
  assert ((exists c n r, configured w c n r) <->
          ~ (truthy (environ w !! "CLUSTER_NAME") = false \/
             truthy (environ w !! "NODEGROUP_NAME") = false \/
             environ w !! "AWS_REGION" = Some "")) as Hiff.
  { split.
    - intros (c & n & r & [Hc Hc' Hn Hn' Hr Hr']) [H | [H | H]].
      + rewrite Hc, truthy_Some in H by assumption. discriminate.
      + rewrite Hn, truthy_Some in H by assumption. discriminate.
      + rewrite H in Hr. cbn in Hr. congruence.
    - intros H.
      destruct (truthy (environ w !! "CLUSTER_NAME")) eqn:Tc; [|tauto].
      destruct (truthy (environ w !! "NODEGROUP_NAME")) eqn:Tn; [|tauto].
      apply truthy_true in Tc as (c & Hc & Hc'), Tn as (n & Hn & Hn').
      exists c, n, (default "us-west-2" (environ w !! "AWS_REGION")).
      split; try assumption; [reflexivity|].
      destruct (environ w !! "AWS_REGION") as [r|]; cbn; [|discriminate].
      intros ->. tauto. }
  destruct (invoke_cases w) as [(c & n & r & Hcfg & E) | [Hno E]].
  - pose proof (configured_not_missing _ _ _ _ Hcfg) as Hnot.
    split; [split|]; intros H; try contradiction.
    exfalso. apply (proj1 Hiff); eauto.
  - rewrite E. split; [split|]; try reflexivity.
    intros _.
    destruct (truthy (environ w !! "CLUSTER_NAME")) eqn:Tc; [|tauto].
    destruct (truthy (environ w !! "NODEGROUP_NAME")) eqn:Tn; [|tauto].
    destruct (environ w !! "AWS_REGION") as [r|] eqn:Er.
    + destruct (String.eqb_spec r "") as [->|Hr]; [tauto|].
      exfalso. destruct (proj2 Hiff) as (c & n & r' & Hcfg).
      * intros [H | [H | H]]; congruence.
      * apply (Hno _ _ _ Hcfg).
    + exfalso. destruct (proj2 Hiff) as (c & n & r' & Hcfg).
      * intros [H | [H | H]]; congruence.
      * apply (Hno _ _ _ Hcfg).
Qed.

Example empty_region_is_rejected :
  invoke w_region_empty = (Return missing_env_response, [missing_env_log]).
Proof. reflexivity. Qed.

(** X2. When [AWS_REGION] is set to a non-empty value and both names
    are present and non-empty, the clients are created for that region
    and every request goes to it: the fallback plays no part. *)
Theorem X2_region_from_environment (w : world) (r : string) :
  environ w !! "AWS_REGION" = Some r -> r <> "" ->
  truthy (environ w !! "CLUSTER_NAME") = true ->
  truthy (environ w !! "NODEGROUP_NAME") = true ->
  exists t,
    (invoke w).2 = NewClient "eks" r :: t /\
    (forall ev, ev ∈ (invoke w).2 ->
       forall r', event_region ev = Some r' -> r' = r).
Proof.
  intros Hr Hr' Tc Tn.
  apply truthy_true in Tc as (c & Hc & Hc'), Tn as (n & Hn & Hn').
  apply (configured_region w c n). split; try assumption.
  rewrite Hr. reflexivity.
Qed.

Lemma X2_region_from_environment_witness :
  exists t,
    (invoke w_region_set).2 = NewClient "eks" "eu-central-1" :: t /\
    (forall ev, ev ∈ (invoke w_region_set).2 ->
       forall r', event_region ev = Some r' -> r' = "eu-central-1").
Proof.
  apply (X2_region_from_environment w_region_set "eu-central-1");
    [reflexivity | discriminate | reflexivity | reflexivity].
Defined.

(** ** The requests *)

(** X3. The requests of an invocation are an initial part of the
    sequence describe, lookup, update: at most three, in that order,
    the reads before the write, each for the configured cluster, node
    group and region. *)
Theorem X3_requests_in_order (w : world) (c n r : string) :
  configured w c n r ->
  exists v latest rest,
    [DescribeNodegroup (eks_client r) c n;
     GetParameter (ssm_client r) (ssm_parameter_path v);
     UpdateNodegroupVersion (eks_client r) (update_request c n latest)] =
    remote_calls (invoke w).2 ++ rest.
Proof.
  intros Hcfg. rewrite (invoke_configured _ _ _ _ Hcfg).
  unfold_body. crunch.
  all: do 3 eexists; reflexivity.
  Unshelve. all: exact "".
Qed.

Lemma X3_requests_in_order_witness :
  exists v latest rest,
    [DescribeNodegroup (eks_client "us-west-2") "my-eks-cluster" "my-eks-nodegroup";
     GetParameter (ssm_client "us-west-2") (ssm_parameter_path v);
     UpdateNodegroupVersion (eks_client "us-west-2")
       (update_request "my-eks-cluster" "my-eks-nodegroup" latest)] =
    remote_calls (invoke w_unsupported).2 ++ rest.
Proof.
  apply (X3_requests_in_order w_unsupported "my-eks-cluster" "my-eks-nodegroup"
           "us-west-2").
  sample_configured.
Defined.

(** Every update request of a trace, and where it comes from. *)
Lemma update_event_inv (w : world) :
  forall ev, ev ∈ (invoke w).2 -> is_update ev = true ->
  exists c n r v cur latest,
    fetched w c n r v cur latest /\ cur <> latest /\
    ev = UpdateNodegroupVersion (eks_client r) (update_request c n latest).
Proof.
  destruct (invoke_cases w) as [(c & n & r & Hcfg & ->) | [_ ->]].
  - unfold_body. crunch.
    all: each_event; cbn; intros Hu; try discriminate Hu.
    all: eqb_props;
      match goal with
      | Hv : ng_version ?ng = Some ?v, Hl : p_Value _ = Some ?l |- _ =>
          exists c, n, r, v, (default "unknown" (ng_releaseVersion ng)), l
      end; split; [|split; [assumption | reflexivity]].
    all: split; [eassumption|]; split; [split; eassumption|].
    all: unfold described, recommended; unfold_body.
    all: split; do 2 eexists; repeat split; first [eassumption | reflexivity].
  - each_event. discriminate.
Qed.

(** X4. Whatever the services answer, an update request the handler
    sends is for the configured cluster and node group, asks for the
    release version the registry returned, passes [force=False] and no
    Kubernetes version; and it is sent only after both versions were
    fetched and found different. *)
Theorem X4_every_update_request (w : world) (ev : event) :
  ev ∈ (invoke w).2 -> is_update ev = true ->
  exists c n r v cur latest req,
    fetched w c n r v cur latest /\ cur <> latest /\
    ev = UpdateNodegroupVersion (eks_client r) req /\
    req_clusterName req = c /\ req_nodegroupName req = n /\
    req_releaseVersion req = Some latest /\
    req_force req = Some false /\ req_version req = None.
Proof.
  intros Hin Hu.
  destruct (update_event_inv w ev Hin Hu) as (c & n & r & v & cur & latest & Hf & Hne & ->).
  exists c, n, r, v, cur, latest, (update_request c n latest).
  split; [assumption|]. split; [assumption|]. repeat split.
Qed.

Lemma X4_every_update_request_witness :
  exists c n r v cur latest req,
    fetched w_custom_ami c n r v cur latest /\ cur <> latest /\
    UpdateNodegroupVersion (eks_client "us-west-2")
      (update_request "my-eks-cluster" "my-eks-nodegroup" "1.26.12-20240329") =
      UpdateNodegroupVersion (eks_client r) req /\
    req_clusterName req = c /\ req_nodegroupName req = n /\
    req_releaseVersion req = Some latest /\
    req_force req = Some false /\ req_version req = None.
Proof.
  apply (X4_every_update_request w_custom_ami
           (UpdateNodegroupVersion (eks_client "us-west-2")
              (update_request "my-eks-cluster" "my-eks-nodegroup" "1.26.12-20240329")));
    [vm_compute; set_solver | reflexivity].
Defined.

(** ** The [except] clauses *)

(** Rewriting in [H] with what the case analysis has fixed. *)
Ltac resolve H :=
  repeat (cbn in H;
          match goal with
          | E : ?x = _ |- _ =>
              lazymatch E with H => fail | _ => idtac end;
              lazymatch type of H with context [x] => rewrite E in H end
          end);
  cbn in H.

(** X5. When a request or the creation of a client fails with a
    [ClientError] that carries its code and message, other than the
    [ParameterNotFound] of the registry lookup (which the inner [try]
    answers), the handler logs 'ClientError: <code> - <message>' as its
    last action and answers by the code: status 404 and 'Cluster <c> or
    node group <n> not found' for [ResourceNotFoundException], whichever
    call raised it; status 400 and 'Invalid parameters: <message>' for
    [InvalidParameterException]; status 500 and 'Error updating node
    group: <message>' for any other code. *)
Theorem X5_client_errors (w : world) (c n r : string) (ev : event) (e : exn)
    (code message : string) :
  configured w c n r ->
  ev ∈ (invoke w).2 ->
  failure w ev = Some e ->
  error_fields e = Some (code, message) ->
  answered_by_inner_try ev e = false ->
  last (invoke w).2 =
    Some (Log ERROR ("ClientError: " +:+ code +:+ " - " +:+ message)) /\
  (code = "ResourceNotFoundException" ->
   (invoke w).1 =
     Return {| statusCode := 404;
               body := Json.dumps_str ("Cluster " +:+ c +:+ " or node group " +:+
                                       n +:+ " not found") |}) /\
  (code = "InvalidParameterException" ->
   (invoke w).1 =
     Return {| statusCode := 400;
               body := Json.dumps_str ("Invalid parameters: " +:+ message) |}) /\
  (code <> "ResourceNotFoundException" ->
   code <> "InvalidParameterException" ->
   (invoke w).1 =
     Return {| statusCode := 500;
               body := Json.dumps_str ("Error updating node group: " +:+ message) |}).
Proof.
  intros Hcfg Hin Hf Hfields Hinner.
  rewrite (invoke_configured _ _ _ _ Hcfg) in *.
  revert ev Hin e code message Hf Hfields Hinner.
  unfold_body. crunch.
  all: each_event; intros x xcode xmessage Hf Hfields Hinner.
  all: answer Hf; try discriminate Hf.
  all: injection Hf as <-; try discriminate Hinner.
  all: resolve Hfields; try discriminate Hfields.
  all: injection Hfields as <- <-; eqb_props.
  all: split; [reflexivity|]; repeat split; intros;
    first [reflexivity | congruence].
Qed.

Lemma X5_client_errors_witness :
  last (invoke w_custom_ami).2 =
    Some (Log ERROR ("ClientError: " +:+ "InvalidParameterException" +:+ " - " +:+
                     "Release version is not supported")) /\
  ("InvalidParameterException" = "ResourceNotFoundException" ->
   (invoke w_custom_ami).1 =
     Return {| statusCode := 404;
               body := Json.dumps_str ("Cluster " +:+ "my-eks-cluster" +:+
                                       " or node group " +:+ "my-eks-nodegroup" +:+
                                       " not found") |}) /\
  ("InvalidParameterException" = "InvalidParameterException" ->
   (invoke w_custom_ami).1 =
     Return {| statusCode := 400;
               body := Json.dumps_str ("Invalid parameters: " +:+
                                       "Release version is not supported") |}) /\
  ("InvalidParameterException" <> "ResourceNotFoundException" ->
   "InvalidParameterException" <> "InvalidParameterException" ->
   (invoke w_custom_ami).1 =
     Return {| statusCode := 500;
               body := Json.dumps_str ("Error updating node group: " +:+
                                       "Release version is not supported") |}).
Proof.
  apply (X5_client_errors w_custom_ami "my-eks-cluster" "my-eks-nodegroup" "us-west-2"
           (UpdateNodegroupVersion (eks_client "us-west-2")
              (update_request "my-eks-cluster" "my-eks-nodegroup" "1.26.12-20240329"))
           (ClientError "InvalidParameterException" "Release version is not supported"));
    [sample_configured | vm_compute; set_solver | reflexivity | reflexivity
    | reflexivity].
Defined.

Example custom_ami_is_reported :
  (invoke w_custom_ami).1 =
    Return (invalid_parameters_response "Release version is not supported") /\
  length (update_calls (invoke w_custom_ami).2) = 1%nat.
Proof. split; reflexivity. Qed.

(** X6. When a request or the creation of a client fails with an
    exception that is neither a [ClientError] nor outside [Exception],
    the handler logs 'Unexpected error: ' and the text of the exception
    as its last action and returns status 500 with that same line as
    its body. *)
Theorem X6_unexpected_errors (w : world) (ev : event) (text : string) :
  ev ∈ (invoke w).2 ->
  failure w ev = Some (OtherException text) ->
  (invoke w).1 =
    Return {| statusCode := 500;
              body := Json.dumps_str ("Unexpected error: " +:+ text) |} /\
  last (invoke w).2 = Some (Log ERROR ("Unexpected error: " +:+ text)).
Proof.
  revert ev text.
  destruct (invoke_cases w) as [(c & n & r & Hcfg & ->) | [_ ->]].
  - intros ev text Hin. revert text. revert ev Hin.
    unfold_body. crunch.
    all: each_event; intros xtext Hf; answer Hf; try discriminate Hf.
    all: injection Hf as <-; split; reflexivity.
  - intros ev text Hin. revert text. revert ev Hin.
    each_event. discriminate.
Qed.

Lemma X6_unexpected_errors_witness :
  (invoke w_bad_region).1 =
    Return {| statusCode := 500;
              body := Json.dumps_str ("Unexpected error: " +:+
                                      "Provided region_name is not valid") |} /\
  last (invoke w_bad_region).2 =
    Some (Log ERROR ("Unexpected error: " +:+ "Provided region_name is not valid")).
Proof.
  apply (X6_unexpected_errors w_bad_region (NewClient "eks" "us west"));
    [vm_compute; set_solver | reflexivity].
Defined.

(** X7. When creating the eks client or the ssm client raises, no
    request is sent to any service.  An exception that is neither a
    [ClientError] nor outside [Exception] then gives status 500 with
    the body 'Unexpected error: <text>'; a [ClientError] carrying its
    code and message gives status 404, 400 or 500 by its code. *)
Theorem X7_client_creation_fails (w : world) (c n r : string) (e : exn) :
  configured w c n r ->
  boto3_client w "eks" r = Some e \/
  (boto3_client w "eks" r = None /\ boto3_client w "ssm" r = Some e) ->
  remote_calls (invoke w).2 = [] /\
  (forall text, e = OtherException text ->
     (invoke w).1 =
       Return {| statusCode := 500;
                 body := Json.dumps_str ("Unexpected error: " +:+ text) |}) /\
  (forall code message, error_fields e = Some (code, message) ->
     exists resp,
       (invoke w).1 = Return resp /\
       statusCode resp =
         if decide (code = "ResourceNotFoundException") then 404
         else if decide (code = "InvalidParameterException") then 400
         else 500).
Proof.
  intros Hcfg H. rewrite (invoke_configured _ _ _ _ Hcfg).
  destruct H as [He | [He Hs]]; unfold_body; follow; crunch.
  all: split; [reflexivity|]; split.
  all: try (intros xtext Hx; first [discriminate Hx | injection Hx as <-; reflexivity]).
  all: intros xcode xmessage Hfields; resolve Hfields; try discriminate Hfields.
  all: injection Hfields as <- <-; eqb_props; eexists; split; [reflexivity|].
  all: cbn; repeat case_decide; congruence.
Qed.

Lemma X7_client_creation_fails_witness :
  remote_calls (invoke w_bad_region).2 = [] /\
  (forall text, OtherException "Provided region_name is not valid" = OtherException text ->
     (invoke w_bad_region).1 =
       Return {| statusCode := 500;
                 body := Json.dumps_str ("Unexpected error: " +:+ text) |}) /\
  (forall code message,
     error_fields (OtherException "Provided region_name is not valid") =
       Some (code, message) ->
     exists resp,
       (invoke w_bad_region).1 = Return resp /\
       statusCode resp =
         if decide (code = "ResourceNotFoundException") then 404
         else if decide (code = "InvalidParameterException") then 400
         else 500).
Proof.
  apply (X7_client_creation_fails w_bad_region "my-eks-cluster" "my-eks-nodegroup"
           "us west" (OtherException "Provided region_name is not valid"));
    [sample_configured | left; reflexivity].
Defined.

(** ** Answers that lack a key *)

(** X8. A describe answer without ['nodegroup'], or whose node group has
    no ['version'], ends the invocation with status 500 and the body
    'Unexpected error: ' followed by the quoted key; the lookup is not
    made.  (A missing ['releaseVersion'] is not such an error.) *)
Theorem X8_describe_answer_lacks_key (w : world) (c n r key : string)
    (resp : describe_nodegroup_response) :
  configured w c n r ->
  clients_created w r ->
  describe_nodegroup w (eks_client r) c n = inr resp ->
  (dn_nodegroup resp = None /\ key = "nodegroup") \/
  (exists ng, dn_nodegroup resp = Some ng /\ ng_version ng = None /\ key = "version") ->
  exists t,
    invoke w =
      (Return {| statusCode := 500;
                 body := Json.dumps_str ("Unexpected error: " +:+ "'" +:+ key +:+ "'") |},
       t) /\
    last t = Some (Log ERROR ("Unexpected error: " +:+ "'" +:+ key +:+ "'")) /\
    remote_calls t = [DescribeNodegroup (eks_client r) c n].
Proof.
  intros Hcfg [He Hs] Hd H. rewrite (invoke_configured _ _ _ _ Hcfg).
  destruct H as [[Hng ->] | (ng & Hng & Hv & ->)]; unfold_body; follow.
  all: eexists; repeat split; reflexivity.
Qed.

Lemma X8_describe_answer_lacks_key_witness :
  exists t,
    invoke w_no_version =
      (Return {| statusCode := 500;
                 body := Json.dumps_str ("Unexpected error: " +:+ "'" +:+ "version" +:+ "'") |},
       t) /\
    last t = Some (Log ERROR ("Unexpected error: " +:+ "'" +:+ "version" +:+ "'")) /\
    remote_calls t =
      [DescribeNodegroup (eks_client "us-west-2") "my-eks-cluster" "my-eks-nodegroup"].
Proof.
  apply (X8_describe_answer_lacks_key w_no_version "my-eks-cluster" "my-eks-nodegroup"
           "us-west-2" "version"
           {| dn_nodegroup :=
                Some {| ng_version := None;
                        ng_releaseVersion := Some "1.26.12-20240307" |} |});
    [sample_configured | split; reflexivity | reflexivity |].
  right. eexists. repeat split; reflexivity.
Defined.

(** X9. A lookup answer without ['Parameter'], or whose parameter has
    no ['Value'], ends the invocation with status 500 and the body
    'Unexpected error: ' followed by the quoted key; it is not taken
    for an unsupported platform version, and no update is requested. *)
Theorem X9_lookup_answer_lacks_key (w : world) (c n r v cur key : string)
    (resp : get_parameter_response) :
  configured w c n r ->
  clients_created w r ->
  described w c n r v cur ->
  get_parameter w (ssm_client r) (ssm_parameter_path v) = inr resp ->
  (gp_Parameter resp = None /\ key = "Parameter") \/
  (exists p, gp_Parameter resp = Some p /\ p_Value p = None /\ key = "Value") ->
  exists t,
    invoke w =
      (Return {| statusCode := 500;
                 body := Json.dumps_str ("Unexpected error: " +:+ "'" +:+ key +:+ "'") |},
       t) /\
    last t = Some (Log ERROR ("Unexpected error: " +:+ "'" +:+ key +:+ "'")) /\
    update_calls t = [] /\
    remote_calls t =
      [DescribeNodegroup (eks_client r) c n;
       GetParameter (ssm_client r) (ssm_parameter_path v)].
Proof.
  intros Hcfg [He Hs] (dr & ng & Hd & Hng & Hv & Hcur) Hg H.
  rewrite (invoke_configured _ _ _ _ Hcfg).
  destruct H as [[Hp ->] | (p & Hp & Hval & ->)]; unfold_body; follow.
  all: eexists; repeat split; reflexivity.
Qed.

Lemma X9_lookup_answer_lacks_key_witness :
  exists t,
    invoke w_no_value =
      (Return {| statusCode := 500;
                 body := Json.dumps_str ("Unexpected error: " +:+ "'" +:+ "Value" +:+ "'") |},
       t) /\
    last t = Some (Log ERROR ("Unexpected error: " +:+ "'" +:+ "Value" +:+ "'")) /\
    update_calls t = [] /\
    remote_calls t =
      [DescribeNodegroup (eks_client "us-west-2") "my-eks-cluster" "my-eks-nodegroup";
       GetParameter (ssm_client "us-west-2") (ssm_parameter_path "1.26")].
Proof.
  apply (X9_lookup_answer_lacks_key w_no_value "my-eks-cluster" "my-eks-nodegroup"
           "us-west-2" "1.26" "1.26.12-20240307" "Value"
           {| gp_Parameter := Some {| p_Value := None |} |});
    [sample_configured | split; reflexivity | sample_answers | reflexivity |].
  right. eexists. repeat split; reflexivity.
Defined.

(** X10. When the update is accepted but its answer lacks ['update'] or
    the ['id'] in it, the invocation returns status 500 with the body
    'Unexpected error: ' followed by the quoted key, although the
    update request has been sent, once. *)
Theorem X10_update_answer_lacks_key (w : world) (c n r v cur latest key : string)
    (resp : update_nodegroup_version_response) :
  fetched w c n r v cur latest ->
  cur <> latest ->
  update_nodegroup_version w (eks_client r) (update_request c n latest) = inr resp ->
  (un_update resp = None /\ key = "update") \/
  (exists u, un_update resp = Some u /\ u_id u = None /\ key = "id") ->
  exists t,
    invoke w =
      (Return {| statusCode := 500;
                 body := Json.dumps_str ("Unexpected error: " +:+ "'" +:+ key +:+ "'") |},
       t) /\
    last t = Some (Log ERROR ("Unexpected error: " +:+ "'" +:+ key +:+ "'")) /\
    update_calls t =
      [UpdateNodegroupVersion (eks_client r) (update_request c n latest)].
Proof.
  intros Hf Hne Hu H. rewrite (invoke_fetched _ _ _ _ _ _ _ Hf).
  apply String.eqb_neq in Hne.
  destruct H as [[Hup ->] | (u & Hup & Hid & ->)]; unfold_body; follow.
  all: eexists; repeat split; reflexivity.
Qed.

Lemma X10_update_answer_lacks_key_witness :
  exists t,
    invoke w_no_update_id =
      (Return {| statusCode := 500;
                 body := Json.dumps_str ("Unexpected error: " +:+ "'" +:+ "id" +:+ "'") |},
       t) /\
    last t = Some (Log ERROR ("Unexpected error: " +:+ "'" +:+ "id" +:+ "'")) /\
    update_calls t =
      [UpdateNodegroupVersion (eks_client "us-west-2")
         (update_request "my-eks-cluster" "my-eks-nodegroup" "1.26.12-20240329")].
Proof.
  apply (X10_update_answer_lacks_key w_no_update_id "my-eks-cluster" "my-eks-nodegroup"
           "us-west-2" "1.26" "1.26.12-20240307" "1.26.12-20240329" "id"
           {| un_update := Some {| u_id := None |} |});
    [sample_fetched | discriminate | reflexivity |].
  right. eexists. repeat split; reflexivity.
Defined.

(** ** Outcomes and the log *)

(** X11. An invocation logs an error exactly when it returns a status
    other than 200; it then logs exactly one, as the last thing it does.
    (An invocation an exception leaves returns no status and has logged
    no error.) *)
Theorem X11_errors_are_logged_once (w : world) :
  (forall resp, (invoke w).1 = Return resp ->
     (statusCode resp = 200 <-> error_logs (invoke w).2 = []) /\
     (statusCode resp <> 200 ->
      exists msg, last (invoke w).2 = Some (Log ERROR msg) /\
                  error_logs (invoke w).2 = [Log ERROR msg])) /\
  (forall e, (invoke w).1 = Raise e -> error_logs (invoke w).2 = []).
Proof.
  destruct (invoke_cases w) as [(c & n & r & Hcfg & ->) | [_ ->]].
  - unfold_body. crunch.
    all: split; [intros xresp Hx | intros xe Hx]; try discriminate Hx;
      try reflexivity.
    all: injection Hx as <-; unfold_responses; cbn.
    all: split; [split; intros H; first [reflexivity | discriminate H]|].
    all: intros H; first [exfalso; apply H; reflexivity
                         | eexists; split; reflexivity].
  - cbn. split; [|intros e H; discriminate H].
    intros resp [= <-]. cbn.
    split; [split; intros H; discriminate H|].
    intros _. eexists. split; reflexivity.
Qed.

(** X12. The invocation returns status 200 exactly when both versions
    are fetched and either they are equal or the update to the
    recommended version is accepted with an answer carrying its id. *)
Theorem X12_success_iff (w : world) :
  (exists resp t, invoke w = (Return resp, t) /\ statusCode resp = 200) <->
  exists c n r v cur latest,
    fetched w c n r v cur latest /\
    (cur = latest \/ exists uid, update_accepted w c n r latest uid).
Proof.
  destruct (invoke_cases w) as [(c & n & r & Hcfg & ->) | [Hno ->]].
  - unfold_body. crunch.
    all: split.
    all: try (intros (xresp & xt & Hx & Hs); try discriminate Hx;
              injection Hx as <- <-; unfold_responses; cbn in Hs;
              try discriminate Hs).
    all: try (intros (c' & n' & r' & v' & cur' & latest' &
                      (Hcfg' & [He Hs] & (dr & ng & Hd & Hng & Hv & Hcur) &
                       (pr & par & Hg & Hp & Hval)) & Hor);
              destruct (configured_unique _ _ _ _ _ _ _ Hcfg Hcfg') as (<- & <- & <-);
              unfold update_accepted in Hor; unfold_body; eqb_props;
              first [do 2 eexists; split; reflexivity
                    | exfalso; destruct Hor as [Heq | (xid & xr & xu & Hu & Hur & Hid)];
                      simplify_eq; congruence]).
    all: eqb_props;
      match goal with
      | Hv : ng_version ?ng = Some ?v, Hl : p_Value _ = Some ?l |- _ =>
          exists c, n, r, v, (default "unknown" (ng_releaseVersion ng)), l
      end.
    all: split;
      [split; [eassumption|]; split; [split; eassumption|];
       unfold described, recommended; unfold_body;
       split; do 2 eexists; repeat split; first [eassumption | reflexivity]|].
    all: first [left; assumption
               | right; unfold update_accepted; unfold_body;
                 do 3 eexists; repeat split; eassumption].
  - split.
    + intros (resp & t & [= <- <-] & Hs). discriminate Hs.
    + intros (c & n & r & _ & _ & _ & (Hcfg & _) & _). destruct (Hno _ _ _ Hcfg).
Qed.

(** ** Two invocations in a row *)

Lemma with_release_fetched w c n r v cur latest release :
  fetched w c n r v cur latest ->
  fetched (with_release w release) c n r v release latest.
Proof.
  intros ([Hc Hc' Hn Hn' Hr Hr'] & Hcl & (dr & ng & Hd & Hng & Hv & Hcur) & Hrec).
  split; [split; assumption|]. split; [assumption|]. split; [|assumption].
  unfold described. cbn. rewrite Hd, Hng.
  do 2 eexists. repeat split. assumption.
Qed.

(** X13. Whatever update an invocation requests, once the node group
    runs the requested release and the registry still recommends the
    same, the next invocation answers 'up to date' and requests no
    update. *)
Theorem X13_update_converges (w : world) (cl : client)
    (req : update_nodegroup_version_request) (release : string) :
  UpdateNodegroupVersion cl req ∈ (invoke w).2 ->
  req_releaseVersion req = Some release ->
  exists t,
    invoke (with_release w release) = (Return up_to_date_response, t) /\
    update_calls t = [].
Proof.
  intros Hin Hrel.
  destruct (update_event_inv w _ Hin eq_refl)
    as (c & n & r & v & cur & latest & Hf & Hne & E).
  injection E as -> ->. cbn in Hrel. injection Hrel as <-.
  rewrite (invoke_fetched _ _ _ _ _ _ _ (with_release_fetched _ _ _ _ _ _ _ latest Hf)).
  unfold_body. rewrite String.eqb_refl. cbn -[String.append].
  eexists. split; reflexivity.
Qed.

Lemma X13_update_converges_witness :
  exists t,
    invoke (with_release w_outdated "1.26.12-20240329") =
      (Return up_to_date_response, t) /\
    update_calls t = [].
Proof.
  apply (X13_update_converges w_outdated (eks_client "us-west-2")
           (update_request "my-eks-cluster" "my-eks-nodegroup" "1.26.12-20240329")
           "1.26.12-20240329");
    [vm_compute; set_solver | reflexivity].
Defined.

(** ** The bodies *)

#[local] Arguments String.append !_ _ : simpl nomatch.

Lemma printable_append (a b : string) :
  printable (a +:+ b) = printable a && printable b.
Proof.
  induction a as [|x a IH]; [reflexivity|].
  cbn [String.append printable]. rewrite IH. apply andb_assoc.
Qed.

Lemma printable_escape_char (c : ascii) : printable (Json.escape_char c) = true.
Proof. destruct c as [[] [] [] [] [] [] [] []]; reflexivity. Qed.

Lemma printable_escape (s : string) : printable (Json.escape s) = true.
Proof.
  induction s as [|c s IH]; [reflexivity|].
  cbn [Json.escape]. now rewrite printable_append, printable_escape_char, IH.
Qed.

Lemma printable_dumps_str (s : string) : printable (Json.dumps_str s) = true.
Proof.
  unfold Json.dumps_str. cbn [printable].
  now rewrite printable_append, printable_escape.
Qed.

Lemma printable_dumps_dict (kvs : list (string * string)) :
  printable (Json.dumps_dict kvs) = true.
Proof.
  unfold Json.dumps_dict. cbn [String.append printable].
  rewrite printable_append. cbn [printable].
  assert (printable (Json.dumps_items kvs) = true) as ->; [|reflexivity].
  induction kvs as [|[k v] kvs IH]; [reflexivity|].
  destruct kvs as [|kv kvs].
  - cbn [Json.dumps_items].
    now rewrite !printable_append, !printable_dumps_str.
  - rewrite dumps_items_cons.
    now rewrite !printable_append, !printable_dumps_str, IH.
Qed.

#[local] Arguments String.append : simpl never.

(** X14. For names, versions and service messages of code points
    below 256 (they may hold quotes, backslashes and control
    characters), the body of a returned response is one JSON document
    that reads back: an object with exactly the keys 'message' and
    'updateId' when the status is 200 after an update request, a string
    in every other case. *)
Theorem X14_body_is_json (w : world) (resp : response) (t : trace) :
  invoke w = (Return resp, t) ->
  ((exists text, Json.loads_str (body resp) = Some text) /\
   (statusCode resp = 200 -> update_calls t = [])) \/
  ((exists message update_id,
      Json.loads_dict (body resp) =
        Some [("message", message); ("updateId", update_id)]) /\
   statusCode resp = 200 /\ update_calls t <> []).
Proof.
  destruct (invoke_cases w) as [(c & n & r & Hcfg & ->) | [_ ->]].
  - unfold_body. crunch.
    all: intros Hx; try discriminate Hx; injection Hx as <- <-.
    all: unfold_responses; cbn [body statusCode].
    all: first
      [ left; split;
        [eexists; apply loads_dumps_str
        |intros Hs; first [reflexivity | discriminate Hs]]
      | right; split;
        [do 2 eexists; apply loads_dumps_dict
        |split; [reflexivity | discriminate]] ].
  - intros [= <- <-]. left. split; [eexists; apply loads_dumps_str|].
    intros Hs. discriminate Hs.
Qed.

Lemma X14_body_is_json_witness :
  ((exists text,
      Json.loads_str (body (error_updating_response odd_message)) = Some text) /\
   (statusCode (error_updating_response odd_message) = 200 ->
    update_calls (invoke w_odd_message).2 = [])) \/
  ((exists message update_id,
      Json.loads_dict (body (error_updating_response odd_message)) =
        Some [("message", message); ("updateId", update_id)]) /\
   statusCode (error_updating_response odd_message) = 200 /\
   update_calls (invoke w_odd_message).2 <> []).
Proof.
  apply (X14_body_is_json w_odd_message (error_updating_response odd_message)
           (invoke w_odd_message).2).
  reflexivity.
Defined.

Example odd_message_reads_back :
  Json.loads_str (body (error_updating_response odd_message)) =
    Some ("Error updating node group: " +:+ odd_message).
Proof. reflexivity. Qed.

(** X15. For names, versions and service messages of code points below
    256, the body of a returned response holds only characters between
    [' '] and ['~']: [json.dumps] escapes every other one. *)
Theorem X15_body_is_printable_ascii (w : world) (resp : response) (t : trace) :
  invoke w = (Return resp, t) -> printable (body resp) = true.
Proof.
  destruct (invoke_cases w) as [(c & n & r & Hcfg & ->) | [_ ->]].
  - unfold_body. crunch.
    all: intros Hx; try discriminate Hx; injection Hx as <- <-.
    all: unfold_responses; cbn [body].
    all: first [apply printable_dumps_str | apply printable_dumps_dict].
  - intros [= <- <-]. apply printable_dumps_str.
Qed.

Lemma X15_body_is_printable_ascii_witness :
  printable (body (error_updating_response odd_message)) = true.
Proof.
  apply (X15_body_is_printable_ascii w_odd_message
           (error_updating_response odd_message) (invoke w_odd_message).2).
  reflexivity.
Defined.

(** ** The registry key *)

Lemma append_cancel_r (a b s : string) : a +:+ s = b +:+ s -> a = b.
Proof.
  revert b. induction a as [|x a IH]; intros [|y b] H.
  - reflexivity.
  - exfalso. apply (f_equal String.length) in H.
    change ("" +:+ s) with s in H. rewrite length_append in H. cbn in H. lia.
  - exfalso. apply (f_equal String.length) in H.
    change ("" +:+ s) with s in H. rewrite length_append in H. cbn in H. lia.
  - change (String x (a +:+ s) = String y (b +:+ s)) in H.
    injection H as -> H. f_equal. now apply IH.
Qed.

(** X16. The registry key is built from the platform version so that
    two platform versions never share a key. *)
Theorem X16_parameter_path_injective (v v' : string) :
  ssm_parameter_path v = ssm_parameter_path v' -> v = v'.
Proof.
  unfold ssm_parameter_path. intros H.
  apply (inj (String.append _)) in H.
  now apply append_cancel_r in H.
Qed.

Lemma X16_parameter_path_injective_witness : "1.26" = "1.26".
Proof.
  apply (X16_parameter_path_injective "1.26" "1.26"). reflexivity.
Defined.
